(** * random_example.py: the RLCard random-play driver

    The script parses one command-line flag, builds an environment through
    [rlcard.make], seeds the global generators, registers two random agents,
    runs one episode and prints parts of the result.  Everything it calls
    (rlcard, argparse, print) lives outside the script, so the script is
    embedded as a program over collaborator calls, and the collaborators are
    an arbitrary stateful handler that may answer or raise. *)

From Stdlib Require Import List String Ascii ZArith Bool Lia.
Import ListNotations.

Set Warnings "-register-all".

Local Open Scope Z_scope.
Local Open Scope list_scope.

(** ** Python values and exceptions *)

(** Keys used for subscripting: the script subscripts with the literals
    [0], [1], ['raw_obs'] and ['raw_legal_actions']. *)
Inductive pykey : Type :=
| KInt (z : Z)
| KStr (s : string).

(** The fragment of Python objects that reaches the script.  [PyObj] is an
    instance of a collaborator class (an environment, an agent): it has no
    container protocol of its own and is only passed back to its library. *)
Inductive pyval : Type :=
| PyNone
| PyBool (b : bool)
| PyInt (z : Z)
| PyStr (s : string)
| PyList (items : list pyval)
| PyTuple (items : list pyval)
| PyDict (entries : list (pykey * pyval))
| PyObj (addr : nat).

Inductive exn : Type :=
| IndexError
| KeyError (k : pykey)
| TypeError
| ValueError
| AttributeError (name : string)
| SystemExit (code : Z)
| LibraryError (what : string).

Inductive result (A : Type) : Type :=
| Ok (a : A)
| Raised (e : exn).

Arguments Ok {A} a.
Arguments Raised {A} e.

Definition pykey_eqb (a b : pykey) : bool :=
  match a, b with
  | KInt x, KInt y => Z.eqb x y
  | KStr x, KStr y => String.eqb x y
  | _, _ => false
  end.

Definition key_val (k : pykey) : pyval :=
  match k with
  | KInt z => PyInt z
  | KStr s => PyStr s
  end.

Fixpoint dict_get (entries : list (pykey * pyval)) (k : pykey) : option pyval :=
  match entries with
  | [] => None
  | (k', v) :: rest => if pykey_eqb k' k then Some v else dict_get rest k
  end.

(** Sequence indexing [items[z]]; a negative index counts from the end. *)
Definition seq_index {A : Type} (items : list A) (z : Z) : result A :=
  let n := Z.of_nat (List.length items) in
  let j := if z <? 0 then z + n else z in
  if (0 <=? j) && (j <? n) then
    match nth_error items (Z.to_nat j) with
    | Some x => Ok x
    | None => Raised IndexError
    end
  else Raised IndexError.

Fixpoint chars (s : string) : list string :=
  match s with
  | EmptyString => []
  | String c rest => String c EmptyString :: chars rest
  end.

(** [v[k]] *)
Definition getitem (v : pyval) (k : pykey) : result pyval :=
  match v, k with
  | PyList items, KInt z => seq_index items z
  | PyTuple items, KInt z => seq_index items z
  | PyStr s, KInt z =>
      match seq_index (chars s) z with
      | Ok c => Ok (PyStr c)
      | Raised e => Raised e
      end
  | PyDict entries, _ =>
      match dict_get entries k with
      | Some x => Ok x
      | None => Raised (KeyError k)
      end
  | _, _ => Raised TypeError
  end.

(** [len(v)] *)
Definition len (v : pyval) : result pyval :=
  match v with
  | PyList items | PyTuple items => Ok (PyInt (Z.of_nat (List.length items)))
  | PyDict entries => Ok (PyInt (Z.of_nat (List.length entries)))
  | PyStr s => Ok (PyInt (Z.of_nat (String.length s)))
  | _ => Raised TypeError
  end.

(** What iterating [v] yields, when [v] is iterable. *)
Definition iterate (v : pyval) : result (list pyval) :=
  match v with
  | PyList items | PyTuple items => Ok items
  | PyDict entries => Ok (map (fun e => key_val (fst e)) entries)
  | PyStr s => Ok (map PyStr (chars s))
  | _ => Raised TypeError
  end.

(** The assignment [a, b = v]. *)
Definition unpack2 (v : pyval) : result (pyval * pyval) :=
  match iterate v with
  | Ok [a; b] => Ok (a, b)
  | Ok _ => Raised ValueError
  | Raised e => Raised e
  end.

(** ** Programs over collaborator calls *)

(** The calls the script makes into rlcard, named as in the source; keyword
    arguments are the constructor's named fields. *)
Inductive call : Type :=
| rlcard_make (env_id : pyval) (config : pyval)
| set_seed (seed : pyval)
| env_num_actions (env : pyval)
| RandomAgent (num_actions : pyval)
| env_set_agents (env : pyval) (agents : pyval)
| env_run (env : pyval) (is_training : bool).

Inductive prog (A : Type) : Type :=
| Ret (a : A)
| Throw (e : exn)
| Call (c : call) (k : pyval -> prog A)
| Print (v : pyval) (k : prog A)
| PPrint (v : pyval) (k : prog A).

Arguments Ret {A} a.
Arguments Throw {A} e.
Arguments Call {A} c k.
Arguments Print {A} v k.
Arguments PPrint {A} v k.

Fixpoint bind {A B : Type} (m : prog A) (f : A -> prog B) : prog B :=
  match m with
  | Ret a => f a
  | Throw e => Throw e
  | Call c k => Call c (fun v => bind (k v) f)
  | Print v k => Print v (bind k f)
  | PPrint v k => PPrint v (bind k f)
  end.

Definition invoke (c : call) : prog pyval := Call c Ret.
Definition print (v : pyval) : prog unit := Print v (Ret tt).
Definition pprint (v : pyval) : prog unit := PPrint v (Ret tt).
Definition lift {A : Type} (r : result A) : prog A :=
  match r with
  | Ok a => Ret a
  | Raised e => Throw e
  end.

Declare Scope prog_scope.
Delimit Scope prog_scope with prog.
Notation "x <- m ;; k" := (bind m (fun x => k))
  (at level 61, m at next level, right associativity) : prog_scope.
Notation "' p <- m ;; k" := (bind m (fun p => k))
  (at level 61, p pattern, m at next level, right associativity) : prog_scope.
Notation "m ;; k" := (bind m (fun _ => k))
  (at level 61, right associativity) : prog_scope.

(** ** Executions *)

(** The collaborators: a state and an answer to every call.  A call either
    returns a value or raises; both may change the state. *)
Record Collaborators (W : Type) : Type := {
  respond : call -> W -> result pyval * W
}.

Arguments respond {W} _ _ _.

Inductive event : Type :=
| Called (c : call) (r : result pyval)
| Printed (v : pyval)
| PPrinted (v : pyval).

Record execution (W A : Type) : Type := {
  log : list event;
  outcome : result A;
  final : W
}.

Arguments log {W A} _.
Arguments outcome {W A} _.
Arguments final {W A} _.

Definition logged {W A : Type} (e : event) (x : execution W A) : execution W A :=
  {| log := e :: log x; outcome := outcome x; final := final x |}.

(** An exception raised by a collaborator is not caught anywhere in the
    script: it ends the execution. *)
Fixpoint exec {W A : Type} (h : Collaborators W) (p : prog A) (w : W)
  : execution W A :=
  match p with
  | Ret a => {| log := []; outcome := Ok a; final := w |}
  | Throw e => {| log := []; outcome := Raised e; final := w |}
  | Call c k =>
      match respond h c w with
      | (Ok v, w') => logged (Called c (Ok v)) (exec h (k v) w')
      | (Raised e, w') =>
          {| log := [Called c (Raised e)]; outcome := Raised e; final := w' |}
      end
  | Print v k => logged (Printed v) (exec h k w)
  | PPrint v k => logged (PPrinted v) (exec h k w)
  end.

(** ** The argparse fragment the script uses

    argparse is part of the Python standard library, not of the repository.
    The model follows [ArgumentParser._parse_known_args] of CPython 3.11
    for a parser whose only declared arguments are one-argument [store]
    options, plus the [-h]/[--help] action every parser gets ([add_help]
    defaults to true): tokens are classified by [_parse_optional], an option
    takes its value from [--flag=value] or from the next token, the value
    goes through [_get_values] (which drops a [--] before it converts and
    checks), a value outside [choices] is an error (status 2), help exits
    with status 0, and tokens left over make [parse_args] fail with
    status 2. *)
Module argparse.

Inductive pytype : Type := str.

Record Argument : Type := {
  flag : string;
  type : pytype;
  default : string;
  choices : list string
}.

Record ArgumentParser : Type := {
  prog_name : string;
  add_help : bool;
  arguments : list Argument
}.

(** [argparse.ArgumentParser(prog)]: the first positional parameter of the
    constructor is the program name. *)
Definition new (prog : string) : ArgumentParser :=
  {| prog_name := prog; add_help := true; arguments := [] |}.

Definition add_argument (p : ArgumentParser) (a : Argument) : ArgumentParser :=
  {| prog_name := prog_name p;
     add_help := add_help p;
     arguments := arguments p ++ [a] |}.

Inductive Action : Type :=
| HelpAction
| StoreAction (a : Argument).

(** [_option_string_actions], in registration order. *)
Definition option_string_actions (p : ArgumentParser) : list (string * Action) :=
  (if add_help p
   then [("-h"%string, HelpAction); ("--help"%string, HelpAction)]
   else [])
  ++ map (fun a => (flag a, StoreAction a)) (arguments p).

Fixpoint lookup {A : Type} (key : string) (l : list (string * A)) : option A :=
  match l with
  | [] => None
  | (k, v) :: rest => if String.eqb k key then Some v else lookup key rest
  end.

(** [s.split('=', 1)] when ['=' in s]. *)
Fixpoint split_eq (s : string) : option (string * string) :=
  match s with
  | EmptyString => None
  | String c rest =>
      if Ascii.eqb c "="%char then Some (EmptyString, rest)
      else match split_eq rest with
           | Some (a, b) => Some (String c a, b)
           | None => None
           end
  end.

Definition dash (s : string) (i : nat) : bool :=
  match String.get i s with
  | Some c => Ascii.eqb c "-"%char
  | None => false
  end.

(** [_get_option_tuples]: the options a token may abbreviate, each with the
    option string and the explicit argument it carries. *)
Definition get_option_tuples (p : ArgumentParser) (arg : string)
  : list (Action * string * option string) :=
  if dash arg 1 then
    let (option_prefix, explicit_arg) :=
      match split_eq arg with
      | Some (a, b) => (a, Some b)
      | None => (arg, None)
      end in
    flat_map (fun oa : string * Action =>
                if String.prefix option_prefix (fst oa)
                then [(snd oa, fst oa, explicit_arg)] else [])
             (option_string_actions p)
  else
    let short_option_prefix := String.substring 0 2 arg in
    let short_explicit_arg := String.substring 2 (String.length arg - 2) arg in
    flat_map (fun oa : string * Action =>
                if String.eqb (fst oa) short_option_prefix
                then [(snd oa, fst oa, Some short_explicit_arg)]
                else if String.prefix arg (fst oa)
                then [(snd oa, fst oa, None)] else [])
             (option_string_actions p).

(** How [_parse_optional] reads a token.  A token that starts with [-] and
    names no option is [Unknown]; argparse reads such a token as a
    positional instead when it looks like a negative number or contains a
    space, which changes nothing here: no positional is declared and no
    choice starts with [-]. *)
Inductive optional : Type :=
| Positional
| Option_ (a : Action) (option_string : string) (explicit_arg : option string)
| Ambiguous
| Unknown.

Definition parse_optional (p : ArgumentParser) (arg : string) : optional :=
  if negb (dash arg 0) then Positional
  else match lookup arg (option_string_actions p) with
  | Some a => Option_ a arg None
  | None =>
      if (String.length arg =? 1)%nat then Positional
      else
        let exact :=
          match split_eq arg with
          | Some (option_string, explicit_arg) =>
              match lookup option_string (option_string_actions p) with
              | Some a => Some (Option_ a option_string (Some explicit_arg))
              | None => None
              end
          | None => None
          end in
        match exact with
        | Some o => o
        | None =>
            match get_option_tuples p arg with
            | [] => Unknown
            | [(a, option_string, explicit_arg)] =>
                Option_ a option_string explicit_arg
            | _ => Ambiguous
            end
        end
  end.

(** The attributes of a [Namespace]; a stored value is a [str], or a list
    when [_get_values] was left with other than one string. *)
Definition Namespace : Type := list (string * pyval).

Fixpoint strip_dashes (s : string) : string :=
  match s with
  | String c rest => if Ascii.eqb c "-"%char then strip_dashes rest else s
  | EmptyString => s
  end.

Fixpoint dashes_to_underscores (s : string) : string :=
  match s with
  | String c rest =>
      String (if Ascii.eqb c "-"%char then "_"%char else c)
             (dashes_to_underscores rest)
  | EmptyString => s
  end.

(** The attribute an option is stored under: [--env] gives [env]. *)
Definition dest (a : Argument) : string :=
  dashes_to_underscores (strip_dashes (flag a)).

Fixpoint setattr (ns : Namespace) (name : string) (value : pyval) : Namespace :=
  match ns with
  | [] => [(name, value)]
  | (k, v) :: rest =>
      if String.eqb k name then (k, value) :: rest
      else (k, v) :: setattr rest name value
  end.

Definition getattr (ns : Namespace) (name : string) : result pyval :=
  match lookup name ns with
  | Some v => Ok v
  | None => Raised (AttributeError name)
  end.

Definition defaults (p : ArgumentParser) : Namespace :=
  fold_left (fun ns a => setattr ns (dest a) (PyStr (default a))) (arguments p) [].

(** [_check_value] *)
Definition check_value (a : Argument) (value : string) : bool :=
  existsb (String.eqb value) (choices a).

(** [arg_strings.remove('--')]: the list without its first [--]. *)
Fixpoint remove_separator (arg_strings : list string) : list string :=
  match arg_strings with
  | [] => []
  | arg :: rest =>
      if String.eqb arg "--" then rest else arg :: remove_separator rest
  end.

(** [_get_values] for a [store] option ([nargs=None], [type=str]): after
    the first [--] is dropped, exactly one string gives that string, checked
    against the choices; anything else gives the list of the strings, each
    checked.  [None] is the [ArgumentError] of a failed check. *)
Definition get_values (a : Argument) (arg_strings : list string) : option pyval :=
  match remove_separator arg_strings with
  | [arg_string] =>
      if check_value a arg_string then Some (PyStr arg_string) else None
  | values =>
      if forallb (check_value a) values
      then Some (PyList (map PyStr values)) else None
  end.

Inductive parsed : Type :=
| Parsed (args : Namespace)
| Exited (status : Z).

(** The pattern letter ['A'] of a token: usable as an option's argument. *)
Definition is_argument (p : ArgumentParser) (arg : string) : bool :=
  negb (String.eqb arg "--") &&
  match parse_optional p arg with
  | Positional => true
  | _ => false
  end.

(** A run of single-dash flags glued to [-h], as in [-hh]. *)
Definition only_help_flags (p : ArgumentParser) (explicit_arg : string) : bool :=
  negb (String.eqb explicit_arg "") &&
  forallb (fun c => match lookup (String.append "-" c) (option_string_actions p) with
                    | Some HelpAction => true
                    | _ => false
                    end)
          (chars explicit_arg).

(** The consuming loop.  [extras] records that some token was left over. *)
Fixpoint consume (p : ArgumentParser) (ns : Namespace) (extras : bool)
         (arg_strings : list string) : parsed :=
  match arg_strings with
  | [] => if extras then Exited 2 else Parsed ns
  | arg :: rest =>
      if String.eqb arg "--" then Exited 2
      else match parse_optional p arg with
      | Positional | Unknown => consume p ns true rest
      | Ambiguous => Exited 2
      | Option_ HelpAction option_string None => Exited 0
      | Option_ HelpAction option_string (Some explicit_arg) =>
          if negb (dash option_string 1) && only_help_flags p explicit_arg
          then Exited 0 else Exited 2
      | Option_ (StoreAction a) _ (Some explicit_arg) =>
          match get_values a [explicit_arg] with
          | Some values => consume p (setattr ns (dest a) values) extras rest
          | None => Exited 2
          end
      | Option_ (StoreAction a) _ None =>
          match rest with
          | arg_string :: rest' =>
              if is_argument p arg_string then
                match get_values a [arg_string] with
                | Some values =>
                    consume p (setattr ns (dest a) values) extras rest'
                | None => Exited 2
                end
              else Exited 2
          | [] => Exited 2
          end
      end
  end.

(** The tokens classified before consumption starts: those before [--]. *)
Fixpoint before_separator (arg_strings : list string) : list string :=
  match arg_strings with
  | [] => []
  | arg :: rest =>
      if String.eqb arg "--" then [] else arg :: before_separator rest
  end.

Definition ambiguous (p : ArgumentParser) (arg : string) : bool :=
  match parse_optional p arg with
  | Ambiguous => true
  | _ => false
  end.

(** [parser.parse_args()] on the arguments after the program name. *)
Definition parse_args (p : ArgumentParser) (arg_strings : list string) : parsed :=
  if existsb (ambiguous p) (before_separator arg_strings) then Exited 2
  else consume p (defaults p) false arg_strings.

End argparse.

(** ** The script *)

Local Open Scope string_scope.
Local Open Scope prog_scope.

Definition newline : string := String "010"%char EmptyString.

(** The value of [choices=[...]] in the call of [parser.add_argument]. *)
Definition env_choices : list string :=
  [ "blackjack";
    "leduc-holdem";
    "limit-holdem";
    "doudizhu";
    "mahjong";
    "no-limit-holdem";
    "uno";
    "gin-rummy";
    "bridge" ].

Definition env_argument : argparse.Argument :=
  {| argparse.flag := "--env";
     argparse.type := argparse.str;
     argparse.default := "leduc-holdem";
     argparse.choices := env_choices |}.

(** [parser = argparse.ArgumentParser("Random example in RLCard")] followed
    by the one call of [parser.add_argument]. *)
Definition parser : argparse.ArgumentParser :=
  argparse.add_argument (argparse.new "Random example in RLCard") env_argument.

(** The dict literal passed as [config=]. *)
Definition config : pyval :=
  PyDict [ (KStr "seed", PyInt 42); (KStr "num_players", PyInt 3) ].

(** [def run(args)] *)
Definition run (args : argparse.Namespace) : prog unit :=
  (* Make environment *)
  args_env <- lift (argparse.getattr args "env") ;;
  env <- invoke (rlcard_make args_env config) ;;
  (* Seed numpy, torch, random *)
  invoke (set_seed (PyInt 42)) ;;
  (* Set agents *)
  n1 <- invoke (env_num_actions env) ;;
  agent1 <- invoke (RandomAgent n1) ;;
  n2 <- invoke (env_num_actions env) ;;
  agent2 <- invoke (RandomAgent n2) ;;
  invoke (env_set_agents env (PyList [agent1; agent2])) ;;
  (* Generate data from the environment *)
  r <- invoke (env_run env false) ;;
  '(trajectories, player_wins) <- lift (unpack2 r) ;;
  (* Print out the trajectories *)
  print (PyStr (newline ++ "Trajectories:")) ;;
  print trajectories ;;
  print (PyStr (newline ++ "Sample raw observation:")) ;;
  t0 <- lift (getitem trajectories (KInt 0)) ;;
  s0 <- lift (getitem t0 (KInt 0)) ;;
  raw_obs <- lift (getitem s0 (KStr "raw_obs")) ;;
  pprint raw_obs ;;
  print (PyStr (newline ++ "Sample raw legal_actions:")) ;;
  t0 <- lift (getitem trajectories (KInt 0)) ;;
  s0 <- lift (getitem t0 (KInt 0)) ;;
  raw_legal_actions <- lift (getitem s0 (KStr "raw_legal_actions")) ;;
  pprint raw_legal_actions ;;
  t0 <- lift (getitem trajectories (KInt 0)) ;;
  n <- lift (len t0) ;;
  print n ;;
  t1 <- lift (getitem trajectories (KInt 1)) ;;
  n <- lift (len t1) ;;
  print n.

(** The [if __name__ == '__main__':] block, on the command-line arguments
    after the script name.  When [parse_args] exits, nothing after it runs. *)
Definition main (argv : list string) : prog unit :=
  match argparse.parse_args parser argv with
  | argparse.Parsed args => run args
  | argparse.Exited status => Throw (SystemExit status)
  end.

(** ** Reading an execution log *)

Definition is_output (e : event) : bool :=
  match e with
  | Called _ _ => false
  | Printed _ | PPrinted _ => true
  end.

Definition is_env_run (e : event) : bool :=
  match e with
  | Called (env_run _ _) _ => true
  | _ => false
  end.

Definition is_RandomAgent (e : event) : bool :=
  match e with
  | Called (RandomAgent _) _ => true
  | _ => false
  end.

Definition is_set_agents (e : event) : bool :=
  match e with
  | Called (env_set_agents _ _) _ => true
  | _ => false
  end.

Definition is_make (e : event) : bool :=
  match e with
  | Called (rlcard_make _ _) _ => true
  | _ => false
  end.

(** ['k' in v] for a dict [v]; false for everything that is not a dict. *)
Definition contains (v : pyval) (k : string) : bool :=
  match v with
  | PyDict entries =>
      match dict_get entries (KStr k) with
      | Some _ => true
      | None => false
      end
  | _ => false
  end.

(** The trajectory structure of the data model as a Python value: a list
    with one list of events per player. *)
Definition trajectories_val (ts : list (list pyval)) : pyval :=
  PyList (map PyList ts).

(** What the printing phase needs of the per-player trajectories: two of
    them at least, the first one starting with an event that holds both
    keys. *)
Definition printable (ts : list (list pyval)) : Prop :=
  (2 <= List.length ts)%nat /\
  exists s0 rest,
    nth_error ts 0 = Some (s0 :: rest) /\
    contains s0 "raw_obs" = true /\
    contains s0 "raw_legal_actions" = true.

(** A command line hands [value] to [--env]: as the token after the flag
    (or an abbreviation of it), or glued to it with [=]. *)
Definition gives_env (argv : list string) (value : string) : Prop :=
  exists pre post,
    (exists flag,
        argv = (pre ++ flag :: value :: post)%list /\
        argparse.parse_optional parser flag
        = argparse.Option_ (argparse.StoreAction env_argument) "--env" None)
    \/
    (exists arg,
        argv = (pre ++ arg :: post)%list /\
        argparse.parse_optional parser arg
        = argparse.Option_ (argparse.StoreAction env_argument) "--env" (Some value)).

(** As [gives_env], but for a value that [_get_values] checks: the glued
    form [--env=--] is left out, because there the [--] is dropped before
    the check. *)
Definition gives_env_checked (argv : list string) (value : string) : Prop :=
  exists pre post,
    (exists flag,
        argv = (pre ++ flag :: value :: post)%list /\
        argparse.parse_optional parser flag
        = argparse.Option_ (argparse.StoreAction env_argument) "--env" None)
    \/
    (exists arg,
        argv = (pre ++ arg :: post)%list /\
        argparse.parse_optional parser arg
        = argparse.Option_ (argparse.StoreAction env_argument) "--env" (Some value) /\
        value <> "--").

(** What [parse_args] leaves under [env]: one of the choices, or the empty
    list that [--env=--] stores. *)
Definition parsed_env (args : argparse.Namespace) : Prop :=
  exists name,
    argparse.getattr args "env" = Ok name /\
    (name = PyList [] \/ exists v, name = PyStr v /\ In v env_choices).

(** ** Two libraries to execute the script against *)

(** A library in the shape of rlcard: objects are allocated at fresh
    addresses, [set_seed] overwrites the one global generator, and an episode
    draws its observations and actions from that generator. *)
Module demo.

Definition world : Type := (Z * nat)%type.

Definition draw (g : Z) : Z := (g * 1103515245 + 12345) mod 2147483648.

Definition state (card : Z) : pyval :=
  PyDict [ (KStr "obs", PyInt card);
           (KStr "legal_actions", PyDict [ (KInt 0, PyNone); (KInt 1, PyNone) ]);
           (KStr "raw_obs", PyDict [ (KStr "hand", PyInt (card mod 6)) ]);
           (KStr "raw_legal_actions", PyList [ PyStr "call"; PyStr "raise" ]) ].

Definition episode (g : Z) : pyval :=
  PyTuple
    [ PyList [ PyList [ state (draw g); PyInt (draw g mod 2);
                        state (draw (draw g)) ];
               PyList [ state (draw (draw g)) ] ];
      PyList [ PyInt 1; PyInt (-1) ] ].

Definition library : Collaborators world :=
  {| respond := fun (c : call) (w : Z * nat) =>
       let (g, next) := w in
       match c with
       | rlcard_make _ _ => (Ok (PyObj next), (g, S next))
       | set_seed seed =>
           (Ok PyNone, (match seed with PyInt z => z | _ => 0 end, next))
       | env_num_actions _ => (Ok (PyInt 2), w)
       | RandomAgent _ => (Ok (PyObj next), (g, S next))
       | env_set_agents _ _ => (Ok PyNone, w)
       | env_run _ _ => (Ok (episode g), (draw (draw g), next))
       end |}.

End demo.

(** A library that honours [num_players]: an episode needs one registered
    agent per configured seat, and indexing the agent list for a seat nobody
    took raises. *)
Module seats.

Definition world : Type := (Z * nat)%type.

Definition library : Collaborators world :=
  {| respond := fun (c : call) (w : Z * nat) =>
       let (seats, agents) := w in
       match c with
       | rlcard_make _ cfg =>
           (Ok (PyObj 0),
            (match getitem cfg (KStr "num_players") with
             | Ok (PyInt n) => n
             | _ => 2
             end, agents))
       | set_seed _ => (Ok PyNone, w)
       | env_num_actions _ => (Ok (PyInt 2), w)
       | RandomAgent _ => (Ok (PyObj 1), w)
       | env_set_agents _ l =>
           (Ok PyNone,
            (seats, match l with PyList items => List.length items | _ => 0%nat end))
       | env_run _ _ =>
           if (Z.of_nat agents <? seats)%Z
           then (Raised IndexError, w)
           else (Ok (demo.episode 42), w)
       end |}.

End seats.

(** A library whose factory draws from the global generator: the
    environment gets its own generator, started from a draw made when the
    environment is built, and an episode is played from that one.
    [set_seed] overwrites the global generator as in [demo]. *)
Module drawing.

Definition world : Type := (Z * Z)%type.

Definition library : Collaborators world :=
  {| respond := fun (c : call) (w : Z * Z) =>
       let (g, own) := w in
       match c with
       | rlcard_make _ _ => (Ok (PyObj 0), (demo.draw g, demo.draw g))
       | set_seed seed =>
           (Ok PyNone, (match seed with PyInt z => z | _ => 0 end, own))
       | env_num_actions _ => (Ok (PyInt 2), w)
       | RandomAgent _ => (Ok (PyObj 1), w)
       | env_set_agents _ _ => (Ok PyNone, w)
       | env_run _ _ => (Ok (demo.episode own), (g, demo.draw (demo.draw own)))
       end |}.

End drawing.

(** A library that builds and registers whatever it is asked to and answers
    [env.run] with a given reply or exception. *)
Module scripted.

Definition library (episode : result pyval) : Collaborators unit :=
  {| respond := fun (c : call) (w : unit) =>
       match c with
       | rlcard_make _ _ => (Ok (PyObj 0), w)
       | set_seed _ => (Ok PyNone, w)
       | env_num_actions _ => (Ok (PyInt 2), w)
       | RandomAgent _ => (Ok (PyObj 1), w)
       | env_set_agents _ _ => (Ok PyNone, w)
       | env_run _ _ => (episode, w)
       end |}.

End scripted.

(** ** More ways to read a log *)

(** What the execution wrote to standard output, in order. *)
Definition outputs (l : list event) : list event := filter is_output l.

(** The collaborator calls of the execution, in order. *)
Definition calls (l : list event) : list event :=
  filter (fun e => negb (is_output e)) l.

(** The environment object a call is a method or attribute of. *)
Definition call_env (c : call) : option pyval :=
  match c with
  | env_num_actions env | env_set_agents env _ | env_run env _ => Some env
  | rlcard_make _ _ | set_seed _ | RandomAgent _ => None
  end.

(** The calls that come after seeding in the source. *)
Definition after_seeding (c : call) : bool :=
  match c with
  | rlcard_make _ _ | set_seed _ => false
  | _ => true
  end.

(** ** Facts about the Python fragment *)

Lemma getitem_str_key (v : pyval) (k : string) (x : pyval) :
  getitem v (KStr k) = Ok x ->
  exists entries, v = PyDict entries /\ dict_get entries (KStr k) = Some x.
Proof.
  destruct v; simpl; try discriminate.
  destruct (dict_get entries (KStr k)) eqn:E; intros H; inversion H; subst.
  exists entries; split; [reflexivity | assumption].
Qed.

Lemma getitem_contains (v : pyval) (k : string) :
  contains v k = true <-> exists x, getitem v (KStr k) = Ok x.
Proof.
  split.
  - destruct v; simpl; try discriminate.
    destruct (dict_get entries (KStr k)); [eauto | discriminate].
  - intros [x H]. apply getitem_str_key in H as (entries & -> & H).
    simpl. rewrite H. reflexivity.
Qed.

Lemma seq_index_nonneg {A : Type} (items : list A) (z : Z) :
  0 <= z ->
  seq_index items z
  = match nth_error items (Z.to_nat z) with
    | Some x => Ok x
    | None => Raised IndexError
    end.
Proof.
  intros Hz. unfold seq_index.
  destruct (Z.ltb_spec z 0) as [Hneg|_]; [lia|].
  destruct (Z.leb_spec 0 z) as [_|Hneg]; [|lia].
  destruct (Z.ltb_spec z (Z.of_nat (List.length items))) as [Hlt|Hge]; simpl.
  - reflexivity.
  - assert (E : nth_error items (Z.to_nat z) = None)
      by (apply nth_error_None; lia).
    rewrite E. reflexivity.
Qed.

(** ** Facts about the command line *)

Lemma parser_options :
  argparse.option_string_actions parser
  = [ ("-h", argparse.HelpAction);
      ("--help", argparse.HelpAction);
      ("--env", argparse.StoreAction env_argument) ].
Proof. reflexivity. Qed.

Lemma check_value_In (v : string) :
  argparse.check_value env_argument v = true <-> In v env_choices.
Proof.
  unfold argparse.check_value. rewrite existsb_exists. split.
  - intros (x & Hx & E). apply String.eqb_eq in E. subst. exact Hx.
  - intros H. exists v. split; [exact H | apply String.eqb_refl].
Qed.

(** The only option the parser stores is the one the script declares. *)
Lemma store_option_is_env (arg : string) (a : argparse.Argument)
      (os : string) (ex : option string) :
  argparse.parse_optional parser arg
  = argparse.Option_ (argparse.StoreAction a) os ex ->
  a = env_argument /\ os = "--env".
Proof.
  unfold argparse.parse_optional, argparse.get_option_tuples.
  rewrite parser_options. cbn [argparse.lookup flat_map fst snd app].
  repeat match goal with
         | |- context [if ?b then _ else _] => destruct b eqn:?
         | |- context [match argparse.split_eq ?s with _ => _ end] =>
             destruct (argparse.split_eq s) as [[? ?]|] eqn:?
         | |- _ => progress cbn [argparse.lookup flat_map fst snd app]
         end;
    intros H; inversion H; subst; split; try reflexivity;
    match goal with
    | E : String.eqb _ _ = true |- _ => apply String.eqb_eq in E; congruence
    end.
Qed.

Lemma option_is_not_argument (arg : string) (a : argparse.Action)
      (os : string) (ex : option string) :
  argparse.parse_optional parser arg = argparse.Option_ a os ex ->
  argparse.is_argument parser arg = false /\ String.eqb arg "--" = false.
Proof.
  intros H. unfold argparse.is_argument. rewrite H. split.
  - apply andb_false_r.
  - destruct (String.eqb arg "--") eqn:E; [|reflexivity].
    apply String.eqb_eq in E. subst. vm_compute in H. discriminate.
Qed.

Lemma getattr_setattr (ns : argparse.Namespace) (name : string) (v : pyval) :
  argparse.getattr (argparse.setattr ns name v) name = Ok v.
Proof.
  unfold argparse.getattr.
  induction ns as [|[k x] ns IH]; simpl.
  - rewrite String.eqb_refl. reflexivity.
  - destruct (String.eqb k name) eqn:E; simpl; rewrite E; [reflexivity | exact IH].
Qed.

(** [_get_values] on the one string an option was given: the string itself
    when it is a choice, the empty list when it is [--], an error otherwise. *)
Lemma get_values_one (value : string) :
  argparse.get_values env_argument [value]
  = if String.eqb value "--" then Some (PyList [])
    else if argparse.check_value env_argument value then Some (PyStr value)
    else None.
Proof.
  unfold argparse.get_values. cbn [argparse.remove_separator].
  destruct (String.eqb value "--"); reflexivity.
Qed.

Lemma get_values_rejects (value : string) :
  value <> "--" ->
  ~ In value env_choices ->
  argparse.get_values env_argument [value] = None.
Proof.
  intros Hsep Hout. rewrite get_values_one.
  destruct (String.eqb value "--") eqn:E.
  - apply String.eqb_eq in E. contradiction.
  - destruct (argparse.check_value env_argument value) eqn:C; [|reflexivity].
    apply check_value_In in C. contradiction.
Qed.

Lemma get_values_checked (value : string) :
  In value env_choices ->
  argparse.get_values env_argument [value] = Some (PyStr value).
Proof.
  intros H. rewrite get_values_one.
  destruct (String.eqb value "--") eqn:E.
  - apply String.eqb_eq in E. subst. simpl in H.
    repeat (destruct H as [H|H]; [discriminate H|]). contradiction.
  - apply check_value_In in H. rewrite H. reflexivity.
Qed.

Lemma parsed_env_setattr (ns : argparse.Namespace) (value : string) (v : pyval) :
  argparse.get_values env_argument [value] = Some v ->
  parsed_env (argparse.setattr ns (argparse.dest env_argument) v).
Proof.
  rewrite get_values_one. intros G. exists v. split.
  - apply getattr_setattr.
  - destruct (String.eqb value "--"); [inversion G; left; reflexivity|].
    destruct (argparse.check_value env_argument value) eqn:C; inversion G.
    right. exists value. split; [reflexivity | apply check_value_In, C].
Qed.

(** Whatever the consuming loop stores under [env] went through
    [_get_values]. *)
Lemma consume_parsed_env (n : nat) :
  forall argv, (List.length argv <= n)%nat ->
  forall ns extras args,
    parsed_env ns ->
    argparse.consume parser ns extras argv = argparse.Parsed args ->
    parsed_env args.
Proof.
  induction n as [|n IH]; intros [|a rest] Hlen ns extras args Hns;
    cbn [argparse.consume List.length] in *; try lia.
  - destruct extras; intros H; inversion H; subst; exact Hns.
  - destruct extras; intros H; inversion H; subst; exact Hns.
  - destruct (String.eqb a "--"); [discriminate|].
    destruct (argparse.parse_optional parser a)
      as [|[|a'] os [ex|]| |] eqn:P; try discriminate.
    + apply IH; [lia | exact Hns].
    + destruct (_ && _); discriminate.
    + apply store_option_is_env in P as [-> ->].
      destruct (argparse.get_values env_argument [ex]) eqn:G; [|discriminate].
      apply IH; [lia | apply (parsed_env_setattr _ _ _ G)].
    + apply store_option_is_env in P as [-> ->].
      destruct rest as [|v rest']; [discriminate|].
      destruct (argparse.is_argument parser v); [|discriminate].
      destruct (argparse.get_values env_argument [v]) eqn:G; [|discriminate].
      apply IH; [cbn [List.length] in Hlen; lia | apply (parsed_env_setattr _ _ _ G)].
    + apply IH; [lia | exact Hns].
Qed.

Lemma parse_args_parsed_env (argv : list string) (args : argparse.Namespace) :
  argparse.parse_args parser argv = argparse.Parsed args -> parsed_env args.
Proof.
  unfold argparse.parse_args.
  destruct (existsb _ _); [discriminate|].
  apply (consume_parsed_env (List.length argv)); [lia|].
  exists (PyStr "leduc-holdem"). split; [reflexivity|].
  right. exists "leduc-holdem". split; [reflexivity | simpl; tauto].
Qed.

(** Once a token that the loop must refuse is on the command line, no
    prefix in front of it makes the loop accept. *)
Lemma consume_rejects (tok : string) (more : list string) :
  argparse.is_argument parser tok = false ->
  (forall ns extras, exists status,
      argparse.consume parser ns extras (tok :: more) = argparse.Exited status) ->
  forall n pre, (List.length pre <= n)%nat ->
  forall ns extras, exists status,
    argparse.consume parser ns extras (pre ++ tok :: more)%list
    = argparse.Exited status.
Proof.
  intros Hart Htok.
  induction n as [|n IH]; intros [|a pre] Hlen ns extras;
    cbn [List.length] in Hlen; try lia; try apply Htok.
  cbn [app argparse.consume].
  destruct (String.eqb a "--"); [eauto|].
  destruct (argparse.parse_optional parser a)
    as [|[|a'] os [ex|]| |] eqn:P; eauto.
  - apply IH; lia.
  - destruct (_ && _); eauto.
  - destruct (argparse.get_values a' [ex]); [apply IH; lia | eauto].
  - destruct pre as [|v pre']; cbn [app].
    + rewrite Hart. eauto.
    + destruct (argparse.is_argument parser v); [|eauto].
      destruct (argparse.get_values a' [v]);
        [apply IH; cbn [List.length] in Hlen; lia | eauto].
  - apply IH; lia.
Qed.

Lemma parse_args_rejects (argv : list string) (value : string) :
  gives_env_checked argv value ->
  ~ In value env_choices ->
  exists status, argparse.parse_args parser argv = argparse.Exited status.
Proof.
  intros (pre & post & H) Hout.
  unfold argparse.parse_args. destruct (existsb _ _); [eauto|].
  destruct H as [(flag & -> & P) | (arg & -> & P & Hsep')];
    destruct (option_is_not_argument _ _ _ _ P) as [Harg Hsep];
    apply (consume_rejects _ _ Harg) with (n := List.length pre); try lia;
    intros ns extras; cbn [argparse.consume]; rewrite Hsep, P.
  - destruct (argparse.is_argument parser value) eqn:A; [|eauto].
    rewrite get_values_rejects; [eauto | | exact Hout].
    intros ->. discriminate A.
  - rewrite (get_values_rejects value Hsep' Hout). eauto.
Qed.

Lemma parse_args_choice (name : string) :
  In name env_choices ->
  argparse.parse_args parser ["--env"; name]
  = argparse.Parsed [("env", PyStr name)].
Proof.
  intros H. simpl in H.
  repeat (destruct H as [<- | H]; [reflexivity|]). contradiction.
Qed.

(** ** Facts about executions *)

Lemma exec_main_exited {W : Type} (h : Collaborators W) (w : W)
      (argv : list string) (status : Z) :
  argparse.parse_args parser argv = argparse.Exited status ->
  exec h (main argv) w
  = {| log := []; outcome := Raised (SystemExit status); final := w |}.
Proof. intros H. unfold main. rewrite H. reflexivity. Qed.

Lemma exec_main_parsed {W : Type} (h : Collaborators W) (w : W)
      (argv : list string) (args : argparse.Namespace) :
  argparse.parse_args parser argv = argparse.Parsed args ->
  exec h (main argv) w = exec h (run args) w.
Proof. intros H. unfold main. rewrite H. reflexivity. Qed.

(** Walking through [run]: one case split per collaborator call and per
    operation of the script that may raise. *)
Ltac reduce_exec :=
  cbn [exec bind invoke lift print pprint logged log outcome final] in *.

Ltac forward :=
  match goal with
  | |- context [respond ?h ?c ?w] =>
      let v := fresh "v" in
      let e := fresh "e" in
      let w' := fresh "w" in
      let E := fresh "E" in
      destruct (respond h c w) as [[v|e] w'] eqn:E
  | |- context [lift (unpack2 ?r)] =>
      let E := fresh "U" in
      destruct (unpack2 r) as [[? ?]|?] eqn:E
  | |- context [lift (argparse.getattr ?a ?n)] =>
      let E := fresh "A" in
      destruct (argparse.getattr a n) as [?|?] eqn:E
  | |- context [lift ?r] =>
      let E := fresh "G" in
      destruct r as [?|?] eqn:E
  end; reduce_exec.

Ltac walk := unfold run; reduce_exec; repeat forward.

Ltac in_log H :=
  simpl in H;
  repeat (destruct H as [H|H]; [try discriminate; try (inversion H; subst; clear H)|]);
  try contradiction.

Lemma run_first_call {W : Type} (h : Collaborators W) (w : W)
      (args : argparse.Namespace) (name : pyval) :
  argparse.getattr args "env" = Ok name ->
  exists r rest,
    log (exec h (run args) w) = Called (rlcard_make name config) r :: rest /\
    existsb is_make rest = false.
Proof.
  intros Hget. unfold run. rewrite Hget. reduce_exec.
  repeat forward; do 2 eexists; split; reflexivity.
Qed.

(** C5: with the namespace holding [name] under [env], the first thing an
    execution of [run] does is call the factory with [name] and the fixed
    configuration; it calls the factory nowhere else, and the configuration
    holds exactly the seed 42 and the player count 3. *)
Theorem C5_fixed_configuration {W : Type} (h : Collaborators W) (w : W)
        (args : argparse.Namespace) (name : pyval) :
  argparse.getattr args "env" = Ok name ->
  exists r rest,
    log (exec h (run args) w) = Called (rlcard_make name config) r :: rest /\
    existsb is_make rest = false /\
    getitem config (KStr "seed") = Ok (PyInt 42) /\
    getitem config (KStr "num_players") = Ok (PyInt 3) /\
    len config = Ok (PyInt 2).
Proof.
  intros Hget.
  destruct (run_first_call h w args name Hget) as (r & rest & Hlog & Hmake).
  exists r, rest. repeat split; assumption || reflexivity.
Qed.

Lemma C5_fixed_configuration_witness :
  argparse.getattr [("env", PyStr "uno")] "env" = Ok (PyStr "uno") /\
  exists r rest,
    log (exec demo.library (run [("env", PyStr "uno")]) (7, 0%nat))
    = Called (rlcard_make (PyStr "uno") config) r :: rest /\
    existsb is_make rest = false /\
    getitem config (KStr "seed") = Ok (PyInt 42) /\
    getitem config (KStr "num_players") = Ok (PyInt 3) /\
    len config = Ok (PyInt 2).
Proof.
  split; [reflexivity|].
  apply (C5_fixed_configuration demo.library (7, 0%nat)
           [("env", PyStr "uno")] (PyStr "uno")).
  reflexivity.
Defined.

(** C9: every execution of [run] on a namespace that holds [env] starts by
    calling the factory with a configuration whose seed is 42, and as soon
    as the factory has returned the next call is the seeding utility, on the
    same value 42; nowhere in the execution is the factory given another
    seed or the seeding utility another value. *)
Theorem C9_one_seed {W : Type} (h : Collaborators W) (w : W)
        (args : argparse.Namespace) (name : pyval) :
  argparse.getattr args "env" = Ok name ->
  exists cfg seed r rest,
    log (exec h (run args) w) = Called (rlcard_make name cfg) r :: rest /\
    getitem cfg (KStr "seed") = Ok seed /\
    seed = PyInt 42 /\
    (forall env, r = Ok env ->
                 exists r' rest', rest = Called (set_seed seed) r' :: rest') /\
    (forall name' cfg' r',
        In (Called (rlcard_make name' cfg') r') (log (exec h (run args) w)) ->
        getitem cfg' (KStr "seed") = Ok seed) /\
    (forall seed' r',
        In (Called (set_seed seed') r') (log (exec h (run args) w)) ->
        seed' = seed).
Proof.
  intros Hget. unfold run. rewrite Hget. reduce_exec.
  repeat forward; exists config, (PyInt 42); do 2 eexists;
    (split; [reflexivity|]); (split; [reflexivity|]); (split; [reflexivity|]);
    (split; [intros ? Hr; inversion Hr; subst; eauto|]);
    (split; [intros ? ? ? H | intros ? ? H]); in_log H; reflexivity.
Qed.

Lemma C9_one_seed_witness :
  argparse.getattr [("env", PyStr "uno")] "env" = Ok (PyStr "uno") /\
  exists cfg seed r rest,
    log (exec demo.library (run [("env", PyStr "uno")]) (7, 0%nat))
    = Called (rlcard_make (PyStr "uno") cfg) r :: rest /\
    getitem cfg (KStr "seed") = Ok seed /\
    seed = PyInt 42 /\
    (forall env, r = Ok env ->
                 exists r' rest', rest = Called (set_seed seed) r' :: rest') /\
    (forall name' cfg' r',
        In (Called (rlcard_make name' cfg') r')
           (log (exec demo.library (run [("env", PyStr "uno")]) (7, 0%nat))) ->
        getitem cfg' (KStr "seed") = Ok seed) /\
    (forall seed' r',
        In (Called (set_seed seed') r')
           (log (exec demo.library (run [("env", PyStr "uno")]) (7, 0%nat))) ->
        seed' = seed).
Proof.
  split; [reflexivity|].
  apply (C9_one_seed demo.library (7, 0%nat) [("env", PyStr "uno")] (PyStr "uno")).
  reflexivity.
Defined.

(** C10: for any two accepted command lines, run against any
    collaborators, the factory is called first and with the same
    configuration; the only difference is the first argument, which is the
    [env] attribute of the parsed arguments passed on as it is: one of the
    choices, or the empty list that [--env=--] stores. *)
Theorem C10_configuration_independent_of_name {W1 W2 : Type}
        (h1 : Collaborators W1) (h2 : Collaborators W2) (w1 : W1) (w2 : W2)
        (argv1 argv2 : list string) (args1 args2 : argparse.Namespace) :
  argparse.parse_args parser argv1 = argparse.Parsed args1 ->
  argparse.parse_args parser argv2 = argparse.Parsed args2 ->
  exists name1 name2 r1 r2 rest1 rest2,
    argparse.getattr args1 "env" = Ok name1 /\
    argparse.getattr args2 "env" = Ok name2 /\
    (name1 = PyList [] \/ exists v, name1 = PyStr v /\ In v env_choices) /\
    (name2 = PyList [] \/ exists v, name2 = PyStr v /\ In v env_choices) /\
    log (exec h1 (main argv1) w1) = Called (rlcard_make name1 config) r1 :: rest1 /\
    log (exec h2 (main argv2) w2) = Called (rlcard_make name2 config) r2 :: rest2.
Proof.
  intros P1 P2.
  destruct (parse_args_parsed_env _ _ P1) as (name1 & G1 & I1).
  destruct (parse_args_parsed_env _ _ P2) as (name2 & G2 & I2).
  rewrite (exec_main_parsed h1 w1 _ _ P1), (exec_main_parsed h2 w2 _ _ P2).
  destruct (run_first_call h1 w1 args1 name1 G1) as (r1 & rest1 & L1 & _).
  destruct (run_first_call h2 w2 args2 name2 G2) as (r2 & rest2 & L2 & _).
  exists name1, name2, r1, r2, rest1, rest2. repeat split; assumption.
Qed.

Lemma C10_configuration_independent_of_name_witness :
  argparse.parse_args parser ["--env"; "uno"]
  = argparse.Parsed [("env", PyStr "uno")] /\
  argparse.parse_args parser ["--env=bridge"]
  = argparse.Parsed [("env", PyStr "bridge")] /\
  exists name1 name2 r1 r2 rest1 rest2,
    argparse.getattr [("env", PyStr "uno")] "env" = Ok name1 /\
    argparse.getattr [("env", PyStr "bridge")] "env" = Ok name2 /\
    (name1 = PyList [] \/ exists v, name1 = PyStr v /\ In v env_choices) /\
    (name2 = PyList [] \/ exists v, name2 = PyStr v /\ In v env_choices) /\
    log (exec demo.library (main ["--env"; "uno"]) (1, 0%nat))
    = Called (rlcard_make name1 config) r1 :: rest1 /\
    log (exec seats.library (main ["--env=bridge"]) (0, 0%nat))
    = Called (rlcard_make name2 config) r2 :: rest2.
Proof.
  split; [reflexivity|]. split; [reflexivity|].
  apply (C10_configuration_independent_of_name
           demo.library seats.library (1, 0%nat) (0, 0%nat)
           ["--env"; "uno"] ["--env=bridge"]
           [("env", PyStr "uno")] [("env", PyStr "bridge")]); reflexivity.
Defined.

(** C3, without its closing clause: an execution of [run] that reaches
    [set_agents] has by then built the environment, read its [num_actions]
    once for each agent, constructed two agents from exactly those two
    readings, and it registers the list of exactly these two agents, in
    order; no other agent is constructed and nothing else is registered. *)
Theorem C3_two_agents {W : Type} (h : Collaborators W) (w : W)
        (args : argparse.Namespace) (env agents : pyval) (r : result pyval) :
  In (Called (env_set_agents env agents) r) (log (exec h (run args) w)) ->
  exists name seeded n1 agent1 n2 agent2 rest,
    log (exec h (run args) w)
    = Called (rlcard_make name config) (Ok env)
        :: Called (set_seed (PyInt 42)) (Ok seeded)
        :: Called (env_num_actions env) (Ok n1)
        :: Called (RandomAgent n1) (Ok agent1)
        :: Called (env_num_actions env) (Ok n2)
        :: Called (RandomAgent n2) (Ok agent2)
        :: Called (env_set_agents env (PyList [agent1; agent2])) r
        :: rest /\
    agents = PyList [agent1; agent2] /\
    len agents = Ok (PyInt 2) /\
    existsb is_RandomAgent rest = false /\
    existsb is_set_agents rest = false.
Proof.
  walk; intros H; in_log H; do 7 eexists; repeat split; reflexivity.
Qed.

Lemma C3_two_agents_witness :
  In (Called (env_set_agents (PyObj 0) (PyList [PyObj 1; PyObj 2])) (Ok PyNone))
     (log (exec demo.library (run [("env", PyStr "uno")]) (7, 0%nat))) /\
  exists name seeded n1 agent1 n2 agent2 rest,
    log (exec demo.library (run [("env", PyStr "uno")]) (7, 0%nat))
    = Called (rlcard_make name config) (Ok (PyObj 0))
        :: Called (set_seed (PyInt 42)) (Ok seeded)
        :: Called (env_num_actions (PyObj 0)) (Ok n1)
        :: Called (RandomAgent n1) (Ok agent1)
        :: Called (env_num_actions (PyObj 0)) (Ok n2)
        :: Called (RandomAgent n2) (Ok agent2)
        :: Called (env_set_agents (PyObj 0) (PyList [agent1; agent2])) (Ok PyNone)
        :: rest /\
    PyList [PyObj 1; PyObj 2] = PyList [agent1; agent2] /\
    len (PyList [PyObj 1; PyObj 2]) = Ok (PyInt 2) /\
    existsb is_RandomAgent rest = false /\
    existsb is_set_agents rest = false.
Proof.
  assert (H : In (Called (env_set_agents (PyObj 0) (PyList [PyObj 1; PyObj 2]))
                         (Ok PyNone))
                 (log (exec demo.library (run [("env", PyStr "uno")]) (7, 0%nat)))).
  { vm_compute. do 6 right. left. reflexivity. }
  split; [exact H|].
  exact (C3_two_agents demo.library (7, 0%nat) [("env", PyStr "uno")] _ _ _ H).
Defined.

(** C3 as stated fails in its closing clause: the two registered agents are
    not the configured player count.  Against a library that honours
    [num_players], the environment ends up with three seats and two agents. *)
Lemma C3_counterexample :
  exists env agents r,
    In (Called (env_set_agents env agents) r)
       (log (exec seats.library (run [("env", PyStr "leduc-holdem")]) (0, 0%nat))) /\
    len agents = Ok (PyInt 2) /\
    getitem config (KStr "num_players") = Ok (PyInt 3) /\
    len agents <> getitem config (KStr "num_players") /\
    final (exec seats.library (run [("env", PyStr "leduc-holdem")]) (0, 0%nat))
    = (3, 2%nat).
Proof.
  exists (PyObj 0), (PyList [PyObj 1; PyObj 1]), (Ok PyNone).
  split; [vm_compute; do 6 right; left; reflexivity|].
  split; [reflexivity|]. split; [reflexivity|].
  split; [discriminate | reflexivity].
Qed.

(** C6: an execution of [run] that ends normally called [env.run] exactly
    once, with [is_training=False], on the environment the factory returned;
    the reply unpacked into exactly two values; and everything after that
    call is output: the eight [print]/[pprint] statements and no other call. *)
Theorem C6_single_episode {W : Type} (h : Collaborators W) (w : W)
        (args : argparse.Namespace) :
  outcome (exec h (run args) w) = Ok tt ->
  exists pre env r trajectories player_wins printed,
    log (exec h (run args) w)
    = (pre ++ Called (env_run env false) (Ok r) :: printed)%list /\
    unpack2 r = Ok (trajectories, player_wins) /\
    existsb is_env_run pre = false /\
    (exists name, In (Called (rlcard_make name config) (Ok env)) pre) /\
    forallb is_output printed = true /\
    List.length printed = 8%nat /\
    nth_error printed 1 = Some (Printed trajectories).
Proof.
  walk; intros H; try discriminate.
  eexists (_ :: _ :: _ :: _ :: _ :: _ :: _ :: nil).
  do 5 eexists. split; [reflexivity|].
  repeat split; try reflexivity; try eassumption.
  eexists. left. reflexivity.
Qed.

Lemma C6_single_episode_witness :
  outcome (exec demo.library (run [("env", PyStr "uno")]) (7, 0%nat)) = Ok tt /\
  exists pre env r trajectories player_wins printed,
    log (exec demo.library (run [("env", PyStr "uno")]) (7, 0%nat))
    = (pre ++ Called (env_run env false) (Ok r) :: printed)%list /\
    unpack2 r = Ok (trajectories, player_wins) /\
    existsb is_env_run pre = false /\
    (exists name, In (Called (rlcard_make name config) (Ok env)) pre) /\
    forallb is_output printed = true /\
    List.length printed = 8%nat /\
    nth_error printed 1 = Some (Printed trajectories).
Proof.
  split; [reflexivity|].
  apply (C6_single_episode demo.library (7, 0%nat) [("env", PyStr "uno")]).
  reflexivity.
Defined.

Lemma nth_error_map_PyList (ts : list (list pyval)) (n : nat) (v : pyval) :
  nth_error (map PyList ts) n = Some v ->
  exists t, nth_error ts n = Some t /\ v = PyList t.
Proof.
  rewrite nth_error_map. destruct (nth_error ts n) as [t|]; simpl; intros H;
    inversion H. eauto.
Qed.

Lemma getitem_trajectories (ts : list (list pyval)) (n : nat) (v : pyval) :
  getitem (trajectories_val ts) (KInt (Z.of_nat n)) = Ok v ->
  exists t, nth_error ts n = Some t /\ v = PyList t.
Proof.
  unfold trajectories_val. cbn [getitem].
  rewrite seq_index_nonneg by lia. rewrite Nat2Z.id.
  destruct (nth_error (map PyList ts) n) eqn:E; intros H; inversion H; subst.
  apply nth_error_map_PyList, E.
Qed.

Lemma getitem_first (t : list pyval) (v : pyval) :
  getitem (PyList t) (KInt 0) = Ok v -> exists rest, t = v :: rest.
Proof.
  cbn [getitem]. rewrite seq_index_nonneg by lia.
  destruct t as [|x rest]; simpl; intros H; inversion H. eauto.
Qed.

(** C8: when [env.run] returned a pair whose first component is a list of
    per-player trajectory lists and the execution of [run] ended normally,
    there were at least two trajectory lists, the first was not empty, and
    its first event held both ['raw_obs'] and ['raw_legal_actions']. *)
Theorem C8_unguarded_printing {W : Type} (h : Collaborators W) (w : W)
        (args : argparse.Namespace) (env player_wins : pyval)
        (ts : list (list pyval)) :
  In (Called (env_run env false)
             (Ok (PyTuple [trajectories_val ts; player_wins])))
     (log (exec h (run args) w)) ->
  outcome (exec h (run args) w) = Ok tt ->
  printable ts.
Proof.
  walk; intros H Hok; try discriminate.
  in_log H.
  match goal with U : unpack2 _ = Ok _ |- _ => simpl in U; inversion U; subst end.
  repeat match goal with
         | G : getitem (trajectories_val ts) (KInt 0) = Ok _ |- _ =>
             apply (getitem_trajectories ts 0) in G as (? & ? & ->)
         | G : getitem (trajectories_val ts) (KInt 1) = Ok _ |- _ =>
             apply (getitem_trajectories ts 1) in G as (? & ? & ->)
         end.
  repeat match goal with
         | G : getitem (PyList _) (KInt 0) = Ok _ |- _ =>
             apply getitem_first in G as (? & ->)
         end.
  destruct ts as [|t0 [|t1 ts]]; try discriminate.
  split; [simpl; lia|].
  repeat match goal with
         | E : nth_error (_ :: _) 0 = Some _ |- _ =>
             simpl in E; inversion E; subst; clear E
         end.
  do 2 eexists. split; [reflexivity|].
  split; apply getitem_contains; eauto.
Qed.

Lemma C8_unguarded_printing_witness :
  In (Called (env_run (PyObj 0) false)
             (Ok (PyTuple
                    [trajectories_val
                       [ [demo.state 1250496027; PyInt 1; demo.state 1116302264];
                         [demo.state 1116302264] ];
                     PyList [PyInt 1; PyInt (-1)]])))
     (log (exec demo.library (run [("env", PyStr "uno")]) (7, 0%nat))) /\
  outcome (exec demo.library (run [("env", PyStr "uno")]) (7, 0%nat)) = Ok tt /\
  printable [ [demo.state 1250496027; PyInt 1; demo.state 1116302264];
              [demo.state 1116302264] ].
Proof.
  assert (H : In (Called (env_run (PyObj 0) false)
             (Ok (PyTuple
                    [trajectories_val
                       [ [demo.state 1250496027; PyInt 1; demo.state 1116302264];
                         [demo.state 1116302264] ];
                     PyList [PyInt 1; PyInt (-1)]])))
     (log (exec demo.library (run [("env", PyStr "uno")]) (7, 0%nat)))).
  { vm_compute. do 7 right. left. reflexivity. }
  split; [exact H|]. split; [reflexivity|].
  exact (C8_unguarded_printing demo.library (7, 0%nat) [("env", PyStr "uno")]
                               _ _ _ H eq_refl).
Defined.

Lemma getitem_trajectories_0 (t0 : list pyval) (ts : list (list pyval)) :
  getitem (trajectories_val (t0 :: ts)) (KInt 0) = Ok (PyList t0).
Proof.
  unfold trajectories_val. cbn [getitem]. rewrite seq_index_nonneg by lia.
  reflexivity.
Qed.

Lemma getitem_trajectories_1 (t0 t1 : list pyval) (ts : list (list pyval)) :
  getitem (trajectories_val (t0 :: t1 :: ts)) (KInt 1) = Ok (PyList t1).
Proof.
  unfold trajectories_val. cbn [getitem]. rewrite seq_index_nonneg by lia.
  reflexivity.
Qed.

Lemma getitem_head (s0 : pyval) (rest : list pyval) :
  getitem (PyList (s0 :: rest)) (KInt 0) = Ok s0.
Proof.
  cbn [getitem]. rewrite seq_index_nonneg by lia. reflexivity.
Qed.

(** C4, as far as it holds: a command line that hands [--env] a value
    outside the choices, as the next token or glued with [=] to anything
    but the bare [--], makes [parse_args] exit, so the process ends with
    [SystemExit] before the factory or any other collaborator is called:
    the log is empty and the state of the collaborators is untouched. *)
Theorem C4_invalid_choice_exits {W : Type} (h : Collaborators W) (w : W)
        (argv : list string) (value : string) :
  gives_env_checked argv value ->
  ~ In value env_choices ->
  exists status,
    exec h (main argv) w
    = {| log := []; outcome := Raised (SystemExit status); final := w |}.
Proof.
  intros Hgiven Hout.
  destruct (parse_args_rejects argv value Hgiven Hout) as [status Hexit].
  exists status. apply exec_main_exited, Hexit.
Qed.

Lemma C4_invalid_choice_exits_witness :
  gives_env_checked ["--env"; "poker"] "poker" /\
  ~ In "poker" env_choices /\
  exists status,
    exec demo.library (main ["--env"; "poker"]) (7, 0%nat)
    = {| log := []; outcome := Raised (SystemExit status); final := (7, 0%nat) |}.
Proof.
  assert (G : gives_env_checked ["--env"; "poker"] "poker").
  { exists [], []. left. exists "--env". split; reflexivity. }
  assert (N : ~ In "poker" env_choices).
  { simpl. intros H. repeat (destruct H as [H|H]; [discriminate H|]). exact H. }
  split; [exact G|]. split; [exact N|].
  exact (C4_invalid_choice_exits demo.library (7, 0%nat) _ _ G N).
Defined.

(** C4 as stated fails at [--env=--]: the value [--] is not a choice, yet
    [_get_values] drops it before the check, [parse_args] returns with
    [env=[]], and [run] calls the factory. *)
Lemma C4_counterexample :
  gives_env ["--env=--"] "--" /\
  ~ In "--" env_choices /\
  argparse.parse_args parser ["--env=--"] = argparse.Parsed [("env", PyList [])] /\
  exists r rest,
    log (exec demo.library (main ["--env=--"]) (7, 0%nat))
    = Called (rlcard_make (PyList []) config) r :: rest.
Proof.
  split.
  { exists [], []. right. exists "--env=--". split; reflexivity. }
  split.
  { simpl. intros H. repeat (destruct H as [H|H]; [discriminate H|]). exact H. }
  split; [reflexivity|].
  do 2 eexists. vm_compute. reflexivity.
Qed.

Lemma parse_args_env_value (value : string) (args : argparse.Namespace) :
  argparse.parse_args parser ["--env"; value] = argparse.Parsed args ->
  In value env_choices /\ args = [("env", PyStr value)].
Proof.
  unfold argparse.parse_args. destruct (existsb _ _); [discriminate|].
  cbn [argparse.consume].
  change (String.eqb "--env" "--") with false. cbv iota.
  change (argparse.parse_optional parser "--env")
    with (argparse.Option_ (argparse.StoreAction env_argument) "--env" None).
  cbv iota.
  destruct (argparse.is_argument parser value) eqn:A; [|discriminate].
  rewrite get_values_one.
  destruct (String.eqb value "--") eqn:E.
  { apply String.eqb_eq in E. subst. discriminate A. }
  destruct (argparse.check_value env_argument value) eqn:C; [|discriminate].
  intros H. inversion H. split; [apply check_value_In, C | reflexivity].
Qed.

(** C7: the script declares exactly one argument, [--env], of type [str],
    with default ['leduc-holdem'] and nine distinct choices; with the flag
    omitted the parsed [env] is the default; a value is accepted after
    [--env] exactly when it is one of the choices; and [--env] is the only
    option under which the parser stores anything. *)
Theorem C7_command_line_surface :
  map argparse.flag (argparse.arguments parser) = ["--env"] /\
  map argparse.type (argparse.arguments parser) = [argparse.str] /\
  map argparse.default (argparse.arguments parser) = ["leduc-holdem"] /\
  map argparse.choices (argparse.arguments parser) = [env_choices] /\
  List.length env_choices = 9%nat /\
  NoDup env_choices /\
  argparse.parse_args parser []
  = argparse.Parsed [("env", PyStr "leduc-holdem")] /\
  (forall value,
      In value env_choices <->
      argparse.parse_args parser ["--env"; value]
      = argparse.Parsed [("env", PyStr value)]) /\
  (forall arg a option_string explicit_arg,
      argparse.parse_optional parser arg
      = argparse.Option_ (argparse.StoreAction a) option_string explicit_arg ->
      a = env_argument /\ option_string = "--env").
Proof.
  repeat split; try reflexivity.
  - repeat (constructor; [simpl; intros H;
                          repeat (destruct H as [H|H]; [discriminate H|]);
                          exact H|]).
    constructor.
  - apply parse_args_choice.
  - intros H. apply parse_args_env_value in H. apply H.
  - eapply store_option_is_env; eassumption.
  - eapply store_option_is_env; eassumption.
Qed.

(** ** Determinism under the seeding contract *)

(** In the demo library an episode does depend on the generator. *)
Remark demo_generator_matters : demo.episode 5 <> demo.episode 9.
Proof. vm_compute. discriminate. Qed.

Section Seeding.

(** The collaborators' state is split into the global generators [G],
    which differ from one process to the next, and the rest [S]. *)
Variables G S : Type.
Variable library : Collaborators (G * S).

(** The environment draws from its own generator, seeded from its
    configuration: what the factory returns and what it leaves behind,
    the global generators apart, do not depend on the global generators. *)
Hypothesis make_ignores_generators :
  forall name cfg g1 g2 s,
    fst (respond library (rlcard_make name cfg) (g1, s))
    = fst (respond library (rlcard_make name cfg) (g2, s)) /\
    snd (snd (respond library (rlcard_make name cfg) (g1, s)))
    = snd (snd (respond library (rlcard_make name cfg) (g2, s))).

(** [set_seed] seeds all global generators: whatever they were before,
    the state after the call is the same. *)
Hypothesis set_seed_seeds_all :
  forall seed g1 g2 s,
    respond library (set_seed seed) (g1, s)
    = respond library (set_seed seed) (g2, s).

(** C1, with the part of the factory spelled out: when [set_seed] seeds
    all global generators and the factory, which [run] calls before it
    seeds, does not depend on them, two executions of [run] on the same
    arguments, started with any two states of the global generators and
    otherwise alike, call the collaborators with the same arguments, get
    the same replies (the pair returned by [env.run] among them), print
    the same values and end the same way. *)
Theorem C1_seeded_runs_agree (args : argparse.Namespace) (g1 g2 : G) (s : S) :
  log (exec library (run args) (g1, s)) = log (exec library (run args) (g2, s)) /\
  outcome (exec library (run args) (g1, s))
  = outcome (exec library (run args) (g2, s)).
Proof.
  unfold run.
  destruct (argparse.getattr args "env") as [name|e]; reduce_exec;
    [|split; reflexivity].
  destruct (make_ignores_generators name config g1 g2 s) as [Hr Hs].
  destruct (respond library (rlcard_make name config) (g1, s))
    as [r1 [g1' s1]].
  destruct (respond library (rlcard_make name config) (g2, s))
    as [r2 [g2' s2]].
  simpl in Hr, Hs. subst r2 s2.
  destruct r1 as [env|e]; reduce_exec; [|split; reflexivity].
  rewrite (set_seed_seeds_all (PyInt 42) g1' g2' s1).
  split; reflexivity.
Qed.

End Seeding.

Lemma C1_seeded_runs_agree_witness :
  (forall name cfg g1 g2 s,
      fst (respond demo.library (rlcard_make name cfg) (g1, s))
      = fst (respond demo.library (rlcard_make name cfg) (g2, s)) /\
      snd (snd (respond demo.library (rlcard_make name cfg) (g1, s)))
      = snd (snd (respond demo.library (rlcard_make name cfg) (g2, s)))) /\
  (forall seed g1 g2 s,
      respond demo.library (set_seed seed) (g1, s)
      = respond demo.library (set_seed seed) (g2, s)) /\
  log (exec demo.library (run [("env", PyStr "uno")]) (5, 0%nat))
  = log (exec demo.library (run [("env", PyStr "uno")]) (9, 0%nat)) /\
  outcome (exec demo.library (run [("env", PyStr "uno")]) (5, 0%nat))
  = outcome (exec demo.library (run [("env", PyStr "uno")]) (9, 0%nat)).
Proof.
  assert (M : forall name cfg g1 g2 s,
      fst (respond demo.library (rlcard_make name cfg) (g1, s))
      = fst (respond demo.library (rlcard_make name cfg) (g2, s)) /\
      snd (snd (respond demo.library (rlcard_make name cfg) (g1, s)))
      = snd (snd (respond demo.library (rlcard_make name cfg) (g2, s)))).
  { intros. split; reflexivity. }
  assert (Q : forall seed g1 g2 s,
      respond demo.library (set_seed seed) (g1, s)
      = respond demo.library (set_seed seed) (g2, s)).
  { intros. reflexivity. }
  split; [exact M|]. split; [exact Q|].
  exact (C1_seeded_runs_agree Z nat demo.library M Q [("env", PyStr "uno")] 5 9 0%nat).
Defined.

(** C1 as stated fails: seeding alone does not make the result a function
    of the name, because [run] builds the environment before it seeds.
    Against a library whose [set_seed] overwrites the global generator but
    whose factory has drawn from it, two executions from two generator
    states play different episodes. *)
Lemma C1_counterexample :
  ~ (forall (G S : Type) (library : Collaborators (G * S)),
        (forall seed g1 g2 s,
            respond library (set_seed seed) (g1, s)
            = respond library (set_seed seed) (g2, s)) ->
        forall (args : argparse.Namespace) (g1 g2 : G) (s : S),
          log (exec library (run args) (g1, s))
          = log (exec library (run args) (g2, s)) /\
          outcome (exec library (run args) (g1, s))
          = outcome (exec library (run args) (g2, s))).
Proof.
  intros H.
  destruct (H Z Z drawing.library (fun _ _ _ _ => eq_refl)
              [("env", PyStr "leduc-holdem")] 5 9 0) as [Hlog _].
  vm_compute in Hlog. discriminate Hlog.
Qed.

(** ** Beyond the claims: what the printing phase writes *)

(** The outcome and the output of [run], by the first operation after the
    episode that raises. *)
Lemma run_after_episode {W : Type} (h : Collaborators W) (w : W)
      (args : argparse.Namespace) (env : pyval) (b : bool) (r : pyval) :
  In (Called (env_run env b) (Ok r)) (log (exec h (run args) w)) ->
  match unpack2 r with
  | Raised e =>
      outcome (exec h (run args) w) = Raised e /\
      outputs (log (exec h (run args) w)) = []
  | Ok (trajectories, _) =>
    match getitem trajectories (KInt 0) with
    | Raised e =>
        outcome (exec h (run args) w) = Raised e /\
        outputs (log (exec h (run args) w))
        = [ Printed (PyStr (newline ++ "Trajectories:"));
            Printed trajectories;
            Printed (PyStr (newline ++ "Sample raw observation:")) ]
    | Ok t0 =>
      match getitem t0 (KInt 0) with
      | Raised e =>
          outcome (exec h (run args) w) = Raised e /\
          outputs (log (exec h (run args) w))
          = [ Printed (PyStr (newline ++ "Trajectories:"));
              Printed trajectories;
              Printed (PyStr (newline ++ "Sample raw observation:")) ]
      | Ok s0 =>
        match getitem s0 (KStr "raw_obs") with
        | Raised e =>
            outcome (exec h (run args) w) = Raised e /\
            outputs (log (exec h (run args) w))
            = [ Printed (PyStr (newline ++ "Trajectories:"));
                Printed trajectories;
                Printed (PyStr (newline ++ "Sample raw observation:")) ]
        | Ok raw_obs =>
          match getitem s0 (KStr "raw_legal_actions") with
          | Raised e =>
              outcome (exec h (run args) w) = Raised e /\
              outputs (log (exec h (run args) w))
              = [ Printed (PyStr (newline ++ "Trajectories:"));
                  Printed trajectories;
                  Printed (PyStr (newline ++ "Sample raw observation:"));
                  PPrinted raw_obs;
                  Printed (PyStr (newline ++ "Sample raw legal_actions:")) ]
          | Ok raw_legal_actions =>
            match len t0 with
            | Raised e =>
                outcome (exec h (run args) w) = Raised e /\
                outputs (log (exec h (run args) w))
                = [ Printed (PyStr (newline ++ "Trajectories:"));
                    Printed trajectories;
                    Printed (PyStr (newline ++ "Sample raw observation:"));
                    PPrinted raw_obs;
                    Printed (PyStr (newline ++ "Sample raw legal_actions:"));
                    PPrinted raw_legal_actions ]
            | Ok n0 =>
              match getitem trajectories (KInt 1) with
              | Raised e =>
                  outcome (exec h (run args) w) = Raised e /\
                  outputs (log (exec h (run args) w))
                  = [ Printed (PyStr (newline ++ "Trajectories:"));
                      Printed trajectories;
                      Printed (PyStr (newline ++ "Sample raw observation:"));
                      PPrinted raw_obs;
                      Printed (PyStr (newline ++ "Sample raw legal_actions:"));
                      PPrinted raw_legal_actions;
                      Printed n0 ]
              | Ok t1 =>
                match len t1 with
                | Raised e =>
                    outcome (exec h (run args) w) = Raised e /\
                    outputs (log (exec h (run args) w))
                    = [ Printed (PyStr (newline ++ "Trajectories:"));
                        Printed trajectories;
                        Printed (PyStr (newline ++ "Sample raw observation:"));
                        PPrinted raw_obs;
                        Printed (PyStr (newline ++ "Sample raw legal_actions:"));
                        PPrinted raw_legal_actions;
                        Printed n0 ]
                | Ok n1 =>
                    outcome (exec h (run args) w) = Ok tt /\
                    outputs (log (exec h (run args) w))
                    = [ Printed (PyStr (newline ++ "Trajectories:"));
                        Printed trajectories;
                        Printed (PyStr (newline ++ "Sample raw observation:"));
                        PPrinted raw_obs;
                        Printed (PyStr (newline ++ "Sample raw legal_actions:"));
                        PPrinted raw_legal_actions;
                        Printed n0;
                        Printed n1 ]
                end
              end
            end
          end
        end
      end
    end
  end.
Proof.
  walk; intros H; in_log H;
    repeat match goal with
           | E : ?t = _ |- context [?t] => rewrite E
           end;
    split; reflexivity.
Qed.

Lemma getitem_trajectories_nil (k : Z) :
  getitem (trajectories_val []) (KInt k) = Raised IndexError.
Proof.
  unfold trajectories_val. cbn [getitem map]. unfold seq_index. cbn [List.length].
  change (Z.of_nat 0) with 0.
  destruct (k <? 0)%Z eqn:E.
  - replace (k + 0) with k by lia.
    destruct (Z.leb_spec 0 k); [apply Z.ltb_lt in E; lia | reflexivity].
  - rewrite E, andb_false_r. reflexivity.
Qed.

Lemma getitem_trajectories_single (t0 : list pyval) :
  getitem (trajectories_val [t0]) (KInt 1) = Raised IndexError.
Proof. reflexivity. Qed.

Lemma getitem_empty : getitem (PyList []) (KInt 0) = Raised IndexError.
Proof. reflexivity. Qed.

Lemma len_PyList (t : list pyval) :
  len (PyList t) = Ok (PyInt (Z.of_nat (List.length t))).
Proof. reflexivity. Qed.

Lemma unpack2_pair (a b : pyval) : unpack2 (PyTuple [a; b]) = Ok (a, b).
Proof. reflexivity. Qed.

(** Rewriting the printing-phase lemma on a reply of the data model's shape. *)
Ltac shape A :=
  repeat first [ rewrite unpack2_pair in A
               | rewrite getitem_trajectories_nil in A
               | rewrite getitem_trajectories_0 in A
               | rewrite getitem_trajectories_1 in A
               | rewrite getitem_trajectories_single in A
               | rewrite getitem_empty in A
               | rewrite getitem_head in A
               | rewrite len_PyList in A ].

Ltac failed A Hok :=
  let A1 := fresh in
  destruct A as [A1 _]; rewrite Hok in A1; discriminate A1.

(** C2 fails on the script for the names of games that are not two-player
    games.  For [blackjack], a one-player game, [env.run] returns the
    trajectory of one player: whatever else the collaborators do, the script
    then does not end normally; with both keys in the first event it prints
    up to the length of that trajectory and raises [IndexError] at
    [trajectories[1]]. *)
Theorem C2_single_trajectory_raises {W : Type} (h : Collaborators W) (w : W)
        (env player_wins s0 : pyval) (rest : list pyval) :
  In (Called (env_run env false)
             (Ok (PyTuple [trajectories_val [s0 :: rest]; player_wins])))
     (log (exec h (main ["--env"; "blackjack"]) w)) ->
  In "blackjack" env_choices /\
  exists e,
    outcome (exec h (main ["--env"; "blackjack"]) w) = Raised e /\
    (contains s0 "raw_obs" = true ->
     contains s0 "raw_legal_actions" = true ->
     e = IndexError).
Proof.
  assert (P : argparse.parse_args parser ["--env"; "blackjack"]
              = argparse.Parsed [("env", PyStr "blackjack")]) by reflexivity.
  rewrite (exec_main_parsed h w _ _ P). intros H.
  split; [simpl; tauto|].
  pose proof (run_after_episode h w _ _ _ _ H) as A. shape A.
  destruct (getitem s0 (KStr "raw_obs")) as [raw_obs|e1] eqn:G1.
  - destruct (getitem s0 (KStr "raw_legal_actions")) as [rla|e2] eqn:G2.
    + shape A. exists IndexError. split; [apply A | reflexivity].
    + exists e2. split; [apply A|]. intros _ C2.
      apply getitem_contains in C2 as [x Gx]. congruence.
  - exists e1. split; [apply A|]. intros C1.
    apply getitem_contains in C1 as [x Gx]. congruence.
Qed.

Lemma C2_single_trajectory_raises_witness :
  In (Called (env_run (PyObj 0) false)
             (Ok (PyTuple [trajectories_val [demo.state 3 :: [PyInt 0]]; PyNone])))
     (log (exec (scripted.library
                   (Ok (PyTuple [trajectories_val [demo.state 3 :: [PyInt 0]];
                                 PyNone])))
                (main ["--env"; "blackjack"]) tt)) /\
  In "blackjack" env_choices /\
  exists e,
    outcome (exec (scripted.library
                     (Ok (PyTuple [trajectories_val [demo.state 3 :: [PyInt 0]];
                                   PyNone])))
                  (main ["--env"; "blackjack"]) tt)
    = Raised e /\
    (contains (demo.state 3) "raw_obs" = true ->
     contains (demo.state 3) "raw_legal_actions" = true ->
     e = IndexError).
Proof.
  assert (H : In (Called (env_run (PyObj 0) false)
             (Ok (PyTuple [trajectories_val [demo.state 3 :: [PyInt 0]]; PyNone])))
     (log (exec (scripted.library
                   (Ok (PyTuple [trajectories_val [demo.state 3 :: [PyInt 0]];
                                 PyNone])))
                (main ["--env"; "blackjack"]) tt))).
  { vm_compute. do 7 right. left. reflexivity. }
  split; [exact H|].
  exact (C2_single_trajectory_raises _ tt _ _ _ _ H).
Defined.

(** X1: when [env.run] returned per-player trajectory lists and [run] ended
    normally, standard output holds exactly eight items, in this order: the
    header, the trajectories, the second header, the first event's
    ['raw_obs'] (pretty-printed), the third header, the first event's
    ['raw_legal_actions'] (pretty-printed), the number of entries of the
    first player's trajectory and that of the second player's. *)
Theorem X1_printed_output {W : Type} (h : Collaborators W) (w : W)
        (args : argparse.Namespace) (env player_wins : pyval)
        (ts : list (list pyval)) :
  In (Called (env_run env false)
             (Ok (PyTuple [trajectories_val ts; player_wins])))
     (log (exec h (run args) w)) ->
  outcome (exec h (run args) w) = Ok tt ->
  exists s0 rest t1 more raw_obs raw_legal_actions,
    ts = (s0 :: rest) :: t1 :: more /\
    getitem s0 (KStr "raw_obs") = Ok raw_obs /\
    getitem s0 (KStr "raw_legal_actions") = Ok raw_legal_actions /\
    outputs (log (exec h (run args) w))
    = [ Printed (PyStr (newline ++ "Trajectories:"));
        Printed (trajectories_val ts);
        Printed (PyStr (newline ++ "Sample raw observation:"));
        PPrinted raw_obs;
        Printed (PyStr (newline ++ "Sample raw legal_actions:"));
        PPrinted raw_legal_actions;
        Printed (PyInt (Z.of_nat (List.length (s0 :: rest))));
        Printed (PyInt (Z.of_nat (List.length t1))) ].
Proof.
  intros H Hok. pose proof (run_after_episode h w args _ _ _ H) as A.
  destruct ts as [|[|s0 rest] [|t1 more]]; shape A; try (failed A Hok).
  - destruct (getitem s0 (KStr "raw_obs")) as [raw_obs|]; [|failed A Hok].
    destruct (getitem s0 (KStr "raw_legal_actions")) as [rla|]; [|failed A Hok].
    shape A. failed A Hok.
  - destruct (getitem s0 (KStr "raw_obs")) as [raw_obs|] eqn:G1; [|failed A Hok].
    destruct (getitem s0 (KStr "raw_legal_actions")) as [rla|] eqn:G2;
      [|failed A Hok].
    shape A. destruct A as [_ A].
    exists s0, rest, t1, more, raw_obs, rla. repeat split; assumption.
Qed.

Lemma X1_printed_output_witness :
  In (Called (env_run (PyObj 0) false)
             (Ok (PyTuple
                    [trajectories_val
                       [ [demo.state 1250496027; PyInt 1; demo.state 1116302264];
                         [demo.state 1116302264] ];
                     PyList [PyInt 1; PyInt (-1)]])))
     (log (exec demo.library (run [("env", PyStr "uno")]) (7, 0%nat))) /\
  outcome (exec demo.library (run [("env", PyStr "uno")]) (7, 0%nat)) = Ok tt /\
  exists s0 rest t1 more raw_obs raw_legal_actions,
    [ [demo.state 1250496027; PyInt 1; demo.state 1116302264];
      [demo.state 1116302264] ]
    = (s0 :: rest) :: t1 :: more /\
    getitem s0 (KStr "raw_obs") = Ok raw_obs /\
    getitem s0 (KStr "raw_legal_actions") = Ok raw_legal_actions /\
    outputs (log (exec demo.library (run [("env", PyStr "uno")]) (7, 0%nat)))
    = [ Printed (PyStr (newline ++ "Trajectories:"));
        Printed (trajectories_val
                   [ [demo.state 1250496027; PyInt 1; demo.state 1116302264];
                     [demo.state 1116302264] ]);
        Printed (PyStr (newline ++ "Sample raw observation:"));
        PPrinted raw_obs;
        Printed (PyStr (newline ++ "Sample raw legal_actions:"));
        PPrinted raw_legal_actions;
        Printed (PyInt (Z.of_nat (List.length (s0 :: rest))));
        Printed (PyInt (Z.of_nat (List.length t1))) ].
Proof.
  assert (H : In (Called (env_run (PyObj 0) false)
             (Ok (PyTuple
                    [trajectories_val
                       [ [demo.state 1250496027; PyInt 1; demo.state 1116302264];
                         [demo.state 1116302264] ];
                     PyList [PyInt 1; PyInt (-1)]])))
     (log (exec demo.library (run [("env", PyStr "uno")]) (7, 0%nat)))).
  { vm_compute. do 7 right. left. reflexivity. }
  split; [exact H|]. split; [reflexivity|].
  exact (X1_printed_output demo.library (7, 0%nat) [("env", PyStr "uno")]
                           _ _ _ H eq_refl).
Defined.

(** X2: the win/payoff record is never written: two normal ends of [run],
    against any collaborators, whose [env.run] replies unpack to the same
    trajectories write the same output, whatever the second component. *)
Theorem X2_player_wins_not_printed {W1 W2 : Type}
        (h1 : Collaborators W1) (h2 : Collaborators W2) (w1 : W1) (w2 : W2)
        (args1 args2 : argparse.Namespace) (env1 env2 r1 r2 : pyval)
        (trajectories wins1 wins2 : pyval) :
  In (Called (env_run env1 false) (Ok r1)) (log (exec h1 (run args1) w1)) ->
  In (Called (env_run env2 false) (Ok r2)) (log (exec h2 (run args2) w2)) ->
  unpack2 r1 = Ok (trajectories, wins1) ->
  unpack2 r2 = Ok (trajectories, wins2) ->
  outcome (exec h1 (run args1) w1) = Ok tt ->
  outcome (exec h2 (run args2) w2) = Ok tt ->
  outputs (log (exec h1 (run args1) w1)) = outputs (log (exec h2 (run args2) w2)).
Proof.
  intros H1 H2 U1 U2 Ok1 Ok2.
  pose proof (run_after_episode h1 w1 args1 _ _ _ H1) as A1.
  pose proof (run_after_episode h2 w2 args2 _ _ _ H2) as A2.
  rewrite U1 in A1. rewrite U2 in A2.
  destruct (getitem trajectories (KInt 0)) as [t0|]; [|failed A1 Ok1].
  destruct (getitem t0 (KInt 0)) as [s0|]; [|failed A1 Ok1].
  destruct (getitem s0 (KStr "raw_obs")); [|failed A1 Ok1].
  destruct (getitem s0 (KStr "raw_legal_actions")); [|failed A1 Ok1].
  destruct (len t0); [|failed A1 Ok1].
  destruct (getitem trajectories (KInt 1)) as [t1|]; [|failed A1 Ok1].
  destruct (len t1); [|failed A1 Ok1].
  destruct A1 as [_ ->]. destruct A2 as [_ ->]. reflexivity.
Qed.

Lemma X2_player_wins_not_printed_witness :
  outputs (log (exec (scripted.library
                        (Ok (PyTuple [trajectories_val [[demo.state 3]; []];
                                      PyInt 1])))
                     (run [("env", PyStr "uno")]) tt))
  = outputs (log (exec (scripted.library
                          (Ok (PyList [trajectories_val [[demo.state 3]; []];
                                       PyNone])))
                       (run [("env", PyStr "bridge")]) tt)).
Proof.
  apply (X2_player_wins_not_printed
           (scripted.library
              (Ok (PyTuple [trajectories_val [[demo.state 3]; []]; PyInt 1])))
           (scripted.library
              (Ok (PyList [trajectories_val [[demo.state 3]; []]; PyNone])))
           tt tt [("env", PyStr "uno")] [("env", PyStr "bridge")]
           (PyObj 0) (PyObj 0)
           (PyTuple [trajectories_val [[demo.state 3]; []]; PyInt 1])
           (PyList [trajectories_val [[demo.state 3]; []]; PyNone])
           (trajectories_val [[demo.state 3]; []]) (PyInt 1) PyNone);
    try reflexivity; vm_compute; do 7 right; left; reflexivity.
Defined.

(** ** Beyond the claims: failures *)

(** X3: nothing is caught and nothing is printed before the episode is
    over: when a collaborator call raises, [run] ends with that very
    exception, the raising call is the last event, and standard output is
    empty. *)
Theorem X3_collaborator_failure {W : Type} (h : Collaborators W) (w : W)
        (args : argparse.Namespace) (c : call) (e : exn) :
  In (Called c (Raised e)) (log (exec h (run args) w)) ->
  outcome (exec h (run args) w) = Raised e /\
  List.last (log (exec h (run args) w)) (Printed PyNone) = Called c (Raised e) /\
  outputs (log (exec h (run args) w)) = [].
Proof.
  walk; intros H; in_log H; repeat split; reflexivity.
Qed.

Lemma X3_collaborator_failure_witness :
  In (Called (env_run (PyObj 0) false) (Raised IndexError))
     (log (exec seats.library (run [("env", PyStr "uno")]) (0, 0%nat))) /\
  outcome (exec seats.library (run [("env", PyStr "uno")]) (0, 0%nat))
  = Raised IndexError /\
  List.last (log (exec seats.library (run [("env", PyStr "uno")]) (0, 0%nat)))
            (Printed PyNone)
  = Called (env_run (PyObj 0) false) (Raised IndexError) /\
  outputs (log (exec seats.library (run [("env", PyStr "uno")]) (0, 0%nat))) = [].
Proof.
  assert (H : In (Called (env_run (PyObj 0) false) (Raised IndexError))
                 (log (exec seats.library (run [("env", PyStr "uno")]) (0, 0%nat)))).
  { vm_compute. do 7 right. left. reflexivity. }
  split; [exact H|].
  exact (X3_collaborator_failure seats.library (0, 0%nat) [("env", PyStr "uno")] _ _ H).
Defined.

(** X4: when the value [env.run] returned does not unpack into exactly two
    values, [run] ends with the exception of the unpacking ([TypeError] for
    a value that is not iterable, [ValueError] for a wrong number of values)
    and has printed nothing. *)
Theorem X4_reply_not_a_pair {W : Type} (h : Collaborators W) (w : W)
        (args : argparse.Namespace) (env r : pyval) (b : bool) (e : exn) :
  In (Called (env_run env b) (Ok r)) (log (exec h (run args) w)) ->
  unpack2 r = Raised e ->
  (e = TypeError \/ e = ValueError) /\
  outcome (exec h (run args) w) = Raised e /\
  outputs (log (exec h (run args) w)) = [].
Proof.
  intros H U. pose proof (run_after_episode h w args _ _ _ H) as A.
  rewrite U in A. split; [|exact A].
  unfold unpack2, iterate in U.
  destruct r as [| | | |items|items|entries|]; try (inversion U; auto; fail).
  - destruct (map PyStr (chars s)) as [|? [|? [|? ?]]]; inversion U; auto.
  - destruct items as [|? [|? [|? ?]]]; inversion U; auto.
  - destruct items as [|? [|? [|? ?]]]; inversion U; auto.
  - destruct (map _ entries) as [|? [|? [|? ?]]]; inversion U; auto.
Qed.

Lemma X4_reply_not_a_pair_witness :
  In (Called (env_run (PyObj 0) false) (Ok PyNone))
     (log (exec (scripted.library (Ok PyNone)) (run [("env", PyStr "uno")]) tt)) /\
  unpack2 PyNone = Raised TypeError /\
  (TypeError = TypeError \/ TypeError = ValueError) /\
  outcome (exec (scripted.library (Ok PyNone)) (run [("env", PyStr "uno")]) tt)
  = Raised TypeError /\
  outputs (log (exec (scripted.library (Ok PyNone)) (run [("env", PyStr "uno")]) tt))
  = [].
Proof.
  assert (H : In (Called (env_run (PyObj 0) false) (Ok PyNone))
     (log (exec (scripted.library (Ok PyNone)) (run [("env", PyStr "uno")]) tt))).
  { vm_compute. do 7 right. left. reflexivity. }
  split; [exact H|]. split; [reflexivity|].
  exact (X4_reply_not_a_pair (scripted.library (Ok PyNone)) tt
                             [("env", PyStr "uno")] _ _ _ _ H eq_refl).
Defined.

(** X5: when [env.run] returned no trajectory at all, or an empty trajectory
    for the first player, [run] ends with [IndexError] at
    [trajectories[0][0]], after printing the first header, the trajectories
    and the second header. *)
Theorem X5_no_first_event {W : Type} (h : Collaborators W) (w : W)
        (args : argparse.Namespace) (env player_wins : pyval)
        (ts : list (list pyval)) :
  In (Called (env_run env false)
             (Ok (PyTuple [trajectories_val ts; player_wins])))
     (log (exec h (run args) w)) ->
  nth_error ts 0 = None \/ nth_error ts 0 = Some [] ->
  outcome (exec h (run args) w) = Raised IndexError /\
  outputs (log (exec h (run args) w))
  = [ Printed (PyStr (newline ++ "Trajectories:"));
      Printed (trajectories_val ts);
      Printed (PyStr (newline ++ "Sample raw observation:")) ].
Proof.
  intros H Hts. pose proof (run_after_episode h w args _ _ _ H) as A.
  destruct ts as [|[|s0 rest] more]; shape A; try exact A;
    destruct Hts as [Hts|Hts]; discriminate Hts.
Qed.

Lemma X5_no_first_event_witness :
  In (Called (env_run (PyObj 0) false)
             (Ok (PyTuple [trajectories_val [[]; []]; PyNone])))
     (log (exec (scripted.library
                   (Ok (PyTuple [trajectories_val [[]; []]; PyNone])))
                (run [("env", PyStr "uno")]) tt)) /\
  (nth_error [[]; ([] : list pyval)] 0 = None \/
   nth_error [[]; ([] : list pyval)] 0 = Some []) /\
  outcome (exec (scripted.library
                   (Ok (PyTuple [trajectories_val [[]; []]; PyNone])))
                (run [("env", PyStr "uno")]) tt)
  = Raised IndexError /\
  outputs (log (exec (scripted.library
                        (Ok (PyTuple [trajectories_val [[]; []]; PyNone])))
                     (run [("env", PyStr "uno")]) tt))
  = [ Printed (PyStr (newline ++ "Trajectories:"));
      Printed (trajectories_val [[]; []]);
      Printed (PyStr (newline ++ "Sample raw observation:")) ].
Proof.
  assert (H : In (Called (env_run (PyObj 0) false)
             (Ok (PyTuple [trajectories_val [[]; []]; PyNone])))
     (log (exec (scripted.library
                   (Ok (PyTuple [trajectories_val [[]; []]; PyNone])))
                (run [("env", PyStr "uno")]) tt))).
  { vm_compute. do 7 right. left. reflexivity. }
  assert (E : nth_error [[]; ([] : list pyval)] 0 = None \/
              nth_error [[]; ([] : list pyval)] 0 = Some []).
  { right. reflexivity. }
  split; [exact H|]. split; [exact E|].
  exact (X5_no_first_event _ tt [("env", PyStr "uno")] _ _ _ H E).
Defined.

(** X6: when the first event of the first trajectory does not hold
    ['raw_obs'], [run] ends at [trajectories[0][0]['raw_obs']] after the
    second header: with [KeyError('raw_obs')] when the event is a dict, with
    [TypeError] when it is anything else. *)
Theorem X6_missing_raw_obs {W : Type} (h : Collaborators W) (w : W)
        (args : argparse.Namespace) (env player_wins s0 : pyval)
        (rest : list pyval) (more : list (list pyval)) :
  In (Called (env_run env false)
             (Ok (PyTuple [trajectories_val ((s0 :: rest) :: more); player_wins])))
     (log (exec h (run args) w)) ->
  contains s0 "raw_obs" = false ->
  outcome (exec h (run args) w)
  = Raised (match s0 with
            | PyDict _ => KeyError (KStr "raw_obs")
            | _ => TypeError
            end) /\
  outputs (log (exec h (run args) w))
  = [ Printed (PyStr (newline ++ "Trajectories:"));
      Printed (trajectories_val ((s0 :: rest) :: more));
      Printed (PyStr (newline ++ "Sample raw observation:")) ].
Proof.
  intros H C. pose proof (run_after_episode h w args _ _ _ H) as A.
  shape A.
  destruct s0; cbn [getitem] in A; try exact A.
  unfold contains in C.
  destruct (dict_get entries (KStr "raw_obs")); [discriminate C | exact A].
Qed.

Lemma X6_missing_raw_obs_witness :
  In (Called (env_run (PyObj 0) false)
             (Ok (PyTuple [trajectories_val ([PyInt 1; PyInt 0] :: [[]]); PyNone])))
     (log (exec (scripted.library
                   (Ok (PyTuple [trajectories_val ([PyInt 1; PyInt 0] :: [[]]);
                                 PyNone])))
                (run [("env", PyStr "uno")]) tt)) /\
  contains (PyInt 1) "raw_obs" = false /\
  outcome (exec (scripted.library
                   (Ok (PyTuple [trajectories_val ([PyInt 1; PyInt 0] :: [[]]);
                                 PyNone])))
                (run [("env", PyStr "uno")]) tt)
  = Raised TypeError /\
  outputs (log (exec (scripted.library
                        (Ok (PyTuple [trajectories_val ([PyInt 1; PyInt 0] :: [[]]);
                                      PyNone])))
                     (run [("env", PyStr "uno")]) tt))
  = [ Printed (PyStr (newline ++ "Trajectories:"));
      Printed (trajectories_val ([PyInt 1; PyInt 0] :: [[]]));
      Printed (PyStr (newline ++ "Sample raw observation:")) ].
Proof.
  assert (H : In (Called (env_run (PyObj 0) false)
             (Ok (PyTuple [trajectories_val ([PyInt 1; PyInt 0] :: [[]]); PyNone])))
     (log (exec (scripted.library
                   (Ok (PyTuple [trajectories_val ([PyInt 1; PyInt 0] :: [[]]);
                                 PyNone])))
                (run [("env", PyStr "uno")]) tt))).
  { vm_compute. do 7 right. left. reflexivity. }
  split; [exact H|]. split; [reflexivity|].
  exact (X6_missing_raw_obs _ tt [("env", PyStr "uno")] _ _ (PyInt 1) _ _ H eq_refl).
Defined.

(** X7: when the first event holds ['raw_obs'] but not
    ['raw_legal_actions'], [run] ends with [KeyError('raw_legal_actions')]
    after it has pretty-printed the observation and printed the third
    header. *)
Theorem X7_missing_raw_legal_actions {W : Type} (h : Collaborators W) (w : W)
        (args : argparse.Namespace) (env player_wins s0 : pyval)
        (rest : list pyval) (more : list (list pyval)) :
  In (Called (env_run env false)
             (Ok (PyTuple [trajectories_val ((s0 :: rest) :: more); player_wins])))
     (log (exec h (run args) w)) ->
  contains s0 "raw_obs" = true ->
  contains s0 "raw_legal_actions" = false ->
  exists raw_obs,
    getitem s0 (KStr "raw_obs") = Ok raw_obs /\
    outcome (exec h (run args) w) = Raised (KeyError (KStr "raw_legal_actions")) /\
    outputs (log (exec h (run args) w))
    = [ Printed (PyStr (newline ++ "Trajectories:"));
        Printed (trajectories_val ((s0 :: rest) :: more));
        Printed (PyStr (newline ++ "Sample raw observation:"));
        PPrinted raw_obs;
        Printed (PyStr (newline ++ "Sample raw legal_actions:")) ].
Proof.
  intros H C1 C2. pose proof (run_after_episode h w args _ _ _ H) as A.
  shape A.
  apply getitem_contains in C1 as [raw_obs G1]. rewrite G1 in A.
  exists raw_obs. split; [exact G1|].
  apply getitem_str_key in G1 as (entries & -> & _).
  unfold contains in C2. cbn [getitem] in A.
  destruct (dict_get entries (KStr "raw_legal_actions")); [discriminate C2 | exact A].
Qed.

Lemma X7_missing_raw_legal_actions_witness :
  In (Called (env_run (PyObj 0) false)
             (Ok (PyTuple [trajectories_val
                             ([PyDict [(KStr "raw_obs", PyInt 5)]] :: [[]]);
                           PyNone])))
     (log (exec (scripted.library
                   (Ok (PyTuple [trajectories_val
                                   ([PyDict [(KStr "raw_obs", PyInt 5)]] :: [[]]);
                                 PyNone])))
                (run [("env", PyStr "uno")]) tt)) /\
  contains (PyDict [(KStr "raw_obs", PyInt 5)]) "raw_obs" = true /\
  contains (PyDict [(KStr "raw_obs", PyInt 5)]) "raw_legal_actions" = false /\
  exists raw_obs,
    getitem (PyDict [(KStr "raw_obs", PyInt 5)]) (KStr "raw_obs") = Ok raw_obs /\
    outcome (exec (scripted.library
                     (Ok (PyTuple [trajectories_val
                                     ([PyDict [(KStr "raw_obs", PyInt 5)]] :: [[]]);
                                   PyNone])))
                  (run [("env", PyStr "uno")]) tt)
    = Raised (KeyError (KStr "raw_legal_actions")) /\
    outputs (log (exec (scripted.library
                          (Ok (PyTuple [trajectories_val
                                          ([PyDict [(KStr "raw_obs", PyInt 5)]]
                                             :: [[]]);
                                        PyNone])))
                       (run [("env", PyStr "uno")]) tt))
    = [ Printed (PyStr (newline ++ "Trajectories:"));
        Printed (trajectories_val ([PyDict [(KStr "raw_obs", PyInt 5)]] :: [[]]));
        Printed (PyStr (newline ++ "Sample raw observation:"));
        PPrinted raw_obs;
        Printed (PyStr (newline ++ "Sample raw legal_actions:")) ].
Proof.
  assert (H : In (Called (env_run (PyObj 0) false)
             (Ok (PyTuple [trajectories_val
                             ([PyDict [(KStr "raw_obs", PyInt 5)]] :: [[]]);
                           PyNone])))
     (log (exec (scripted.library
                   (Ok (PyTuple [trajectories_val
                                   ([PyDict [(KStr "raw_obs", PyInt 5)]] :: [[]]);
                                 PyNone])))
                (run [("env", PyStr "uno")]) tt))).
  { vm_compute. do 7 right. left. reflexivity. }
  split; [exact H|]. split; [reflexivity|]. split; [reflexivity|].
  exact (X7_missing_raw_legal_actions _ tt [("env", PyStr "uno")] _ _ _ _ _
                                      H eq_refl eq_refl).
Defined.

(** X8: when [env.run] returned the trajectory of one player only, with a
    first event holding both keys, [run] still prints everything up to the
    length of that trajectory and then ends with [IndexError] at
    [trajectories[1]]. *)
Theorem X8_single_player {W : Type} (h : Collaborators W) (w : W)
        (args : argparse.Namespace) (env player_wins s0 : pyval)
        (rest : list pyval) :
  In (Called (env_run env false)
             (Ok (PyTuple [trajectories_val [s0 :: rest]; player_wins])))
     (log (exec h (run args) w)) ->
  contains s0 "raw_obs" = true ->
  contains s0 "raw_legal_actions" = true ->
  exists raw_obs raw_legal_actions,
    getitem s0 (KStr "raw_obs") = Ok raw_obs /\
    getitem s0 (KStr "raw_legal_actions") = Ok raw_legal_actions /\
    outcome (exec h (run args) w) = Raised IndexError /\
    outputs (log (exec h (run args) w))
    = [ Printed (PyStr (newline ++ "Trajectories:"));
        Printed (trajectories_val [s0 :: rest]);
        Printed (PyStr (newline ++ "Sample raw observation:"));
        PPrinted raw_obs;
        Printed (PyStr (newline ++ "Sample raw legal_actions:"));
        PPrinted raw_legal_actions;
        Printed (PyInt (Z.of_nat (List.length (s0 :: rest)))) ].
Proof.
  intros H C1 C2. pose proof (run_after_episode h w args _ _ _ H) as A.
  shape A.
  apply getitem_contains in C1 as [raw_obs G1].
  apply getitem_contains in C2 as [rla G2].
  rewrite G1, G2 in A. shape A.
  exists raw_obs, rla. repeat split; assumption || apply A.
Qed.

Lemma X8_single_player_witness :
  In (Called (env_run (PyObj 0) false)
             (Ok (PyTuple [trajectories_val [demo.state 3 :: [PyInt 0]]; PyNone])))
     (log (exec (scripted.library
                   (Ok (PyTuple [trajectories_val [demo.state 3 :: [PyInt 0]];
                                 PyNone])))
                (run [("env", PyStr "uno")]) tt)) /\
  contains (demo.state 3) "raw_obs" = true /\
  contains (demo.state 3) "raw_legal_actions" = true /\
  exists raw_obs raw_legal_actions,
    getitem (demo.state 3) (KStr "raw_obs") = Ok raw_obs /\
    getitem (demo.state 3) (KStr "raw_legal_actions") = Ok raw_legal_actions /\
    outcome (exec (scripted.library
                     (Ok (PyTuple [trajectories_val [demo.state 3 :: [PyInt 0]];
                                   PyNone])))
                  (run [("env", PyStr "uno")]) tt)
    = Raised IndexError /\
    outputs (log (exec (scripted.library
                          (Ok (PyTuple [trajectories_val [demo.state 3 :: [PyInt 0]];
                                        PyNone])))
                       (run [("env", PyStr "uno")]) tt))
    = [ Printed (PyStr (newline ++ "Trajectories:"));
        Printed (trajectories_val [demo.state 3 :: [PyInt 0]]);
        Printed (PyStr (newline ++ "Sample raw observation:"));
        PPrinted raw_obs;
        Printed (PyStr (newline ++ "Sample raw legal_actions:"));
        PPrinted raw_legal_actions;
        Printed (PyInt (Z.of_nat (List.length (demo.state 3 :: [PyInt 0])))) ].
Proof.
  assert (H : In (Called (env_run (PyObj 0) false)
             (Ok (PyTuple [trajectories_val [demo.state 3 :: [PyInt 0]]; PyNone])))
     (log (exec (scripted.library
                   (Ok (PyTuple [trajectories_val [demo.state 3 :: [PyInt 0]];
                                 PyNone])))
                (run [("env", PyStr "uno")]) tt))).
  { vm_compute. do 7 right. left. reflexivity. }
  split; [exact H|]. split; [reflexivity|]. split; [reflexivity|].
  exact (X8_single_player _ tt [("env", PyStr "uno")] _ _ _ _ H eq_refl eq_refl).
Defined.

(** ** Beyond the claims: the order of the calls *)

(** X9: [run] calls no method and reads no attribute of anything but the
    environment the factory returned: every call on an environment object
    is on the value with which [rlcard.make], the first event, returned. *)
Theorem X9_methods_on_made_environment {W : Type} (h : Collaborators W) (w : W)
        (args : argparse.Namespace) (c : call) (r : result pyval) (env : pyval) :
  In (Called c r) (log (exec h (run args) w)) ->
  call_env c = Some env ->
  exists name rest,
    log (exec h (run args) w)
    = Called (rlcard_make name config) (Ok env) :: rest.
Proof.
  walk; intros H; in_log H; intros C; inversion C; subst;
    do 2 eexists; reflexivity.
Qed.

Lemma X9_methods_on_made_environment_witness :
  In (Called (env_num_actions (PyObj 0)) (Ok (PyInt 2)))
     (log (exec demo.library (run [("env", PyStr "uno")]) (7, 0%nat))) /\
  call_env (env_num_actions (PyObj 0)) = Some (PyObj 0) /\
  exists name rest,
    log (exec demo.library (run [("env", PyStr "uno")]) (7, 0%nat))
    = Called (rlcard_make name config) (Ok (PyObj 0)) :: rest.
Proof.
  assert (H : In (Called (env_num_actions (PyObj 0)) (Ok (PyInt 2)))
                 (log (exec demo.library (run [("env", PyStr "uno")]) (7, 0%nat)))).
  { vm_compute. do 2 right. left. reflexivity. }
  split; [exact H|]. split; [reflexivity|].
  exact (X9_methods_on_made_environment demo.library (7, 0%nat)
           [("env", PyStr "uno")] _ _ _ H eq_refl).
Defined.

(** X10: the global generators are seeded before anything else is done with
    the environment: whenever [run] reads [num_actions], constructs an
    agent, registers agents or runs the episode, the log starts with the
    factory and [set_seed(42)], both returned normally, and that call comes
    after them. *)
Theorem X10_seeded_before_use {W : Type} (h : Collaborators W) (w : W)
        (args : argparse.Namespace) (c : call) (r : result pyval) :
  In (Called c r) (log (exec h (run args) w)) ->
  after_seeding c = true ->
  exists name env seeded rest,
    log (exec h (run args) w)
    = Called (rlcard_make name config) (Ok env)
        :: Called (set_seed (PyInt 42)) (Ok seeded)
        :: rest /\
    In (Called c r) rest.
Proof.
  walk; intros H; in_log H; intros C; try discriminate C;
    do 4 eexists; (split; [reflexivity | simpl; auto 10]).
Qed.

Lemma X10_seeded_before_use_witness :
  In (Called (RandomAgent (PyInt 2)) (Ok (PyObj 1)))
     (log (exec demo.library (run [("env", PyStr "uno")]) (7, 0%nat))) /\
  after_seeding (RandomAgent (PyInt 2)) = true /\
  exists name env seeded rest,
    log (exec demo.library (run [("env", PyStr "uno")]) (7, 0%nat))
    = Called (rlcard_make name config) (Ok env)
        :: Called (set_seed (PyInt 42)) (Ok seeded)
        :: rest /\
    In (Called (RandomAgent (PyInt 2)) (Ok (PyObj 1))) rest.
Proof.
  assert (H : In (Called (RandomAgent (PyInt 2)) (Ok (PyObj 1)))
                 (log (exec demo.library (run [("env", PyStr "uno")]) (7, 0%nat)))).
  { vm_compute. do 3 right. left. reflexivity. }
  split; [exact H|]. split; [reflexivity|].
  exact (X10_seeded_before_use demo.library (7, 0%nat) [("env", PyStr "uno")]
                               _ _ H eq_refl).
Defined.

(** X11: whatever the collaborators do, an execution of [run] makes at most
    eight calls, at most one of them [env.run], and never one with
    [is_training=True]. *)
Theorem X11_call_bounds {W : Type} (h : Collaborators W) (w : W)
        (args : argparse.Namespace) :
  (List.length (calls (log (exec h (run args) w))) <= 8)%nat /\
  (List.length (filter is_env_run (log (exec h (run args) w))) <= 1)%nat /\
  (forall env b r,
      In (Called (env_run env b) r) (log (exec h (run args) w)) -> b = false).
Proof.
  walk; (split; [simpl; lia | split; [simpl; lia |]]);
    intros ? ? ? H; in_log H; reflexivity.
Qed.

(** ** Beyond the claims: the command line *)

(** Once a token was left over, the loop does not accept. *)
Lemma consume_extras (n : nat) :
  forall argv, (List.length argv <= n)%nat ->
  forall ns, exists status,
    argparse.consume parser ns true argv = argparse.Exited status.
Proof.
  induction n as [|n IH]; intros [|a rest] Hlen ns;
    cbn [argparse.consume List.length] in *; try lia; eauto.
  destruct (String.eqb a "--"); [eauto|].
  destruct (argparse.parse_optional parser a)
    as [|[|a'] os [ex|]| |]; eauto.
  - apply IH; lia.
  - destruct (_ && _); eauto.
  - destruct (argparse.get_values a' [ex]); [apply IH; lia | eauto].
  - destruct rest as [|v rest']; [eauto|].
    destruct (argparse.is_argument parser v); [|eauto].
    destruct (argparse.get_values a' [v]);
      [apply IH; cbn [List.length] in Hlen; lia | eauto].
  - apply IH; lia.
Qed.

(** A command line the loop accepts can be continued: the loop goes on
    with the namespace it had reached. *)
Lemma consume_app (n : nat) :
  forall pre, (List.length pre <= n)%nat ->
  forall ns extras args suffix,
    argparse.consume parser ns extras pre = argparse.Parsed args ->
    argparse.consume parser ns extras (pre ++ suffix)%list
    = argparse.consume parser args false suffix.
Proof.
  induction n as [|n IH]; intros [|a pre] Hlen ns extras args suffix;
    cbn [app argparse.consume List.length] in *; try lia;
    try (destruct extras; intros H; inversion H; reflexivity).
  destruct (String.eqb a "--"); [discriminate|].
  destruct (argparse.parse_optional parser a)
    as [|[|a'] os [ex|]| |]; try discriminate.
  - apply IH; lia.
  - destruct (_ && _); discriminate.
  - destruct (argparse.get_values a' [ex]); [apply IH; lia | discriminate].
  - destruct pre as [|v pre']; [discriminate|]. cbn [app].
    destruct (argparse.is_argument parser v); [|discriminate].
    destruct (argparse.get_values a' [v]);
      [apply IH; cbn [List.length] in Hlen; lia | discriminate].
  - apply IH; lia.
Qed.

(** X12: the script takes no positional argument and no other option: after
    any accepted command line, one more token that is not an option of the
    parser makes the process exit in [parse_args], whatever follows, before
    any collaborator is called. *)
Theorem X12_leftover_token_exits {W : Type} (h : Collaborators W) (w : W)
        (pre rest : list string) (token : string) (args : argparse.Namespace) :
  argparse.parse_args parser pre = argparse.Parsed args ->
  argparse.parse_optional parser token = argparse.Positional \/
  argparse.parse_optional parser token = argparse.Unknown ->
  exists status,
    exec h (main (pre ++ token :: rest)%list) w
    = {| log := []; outcome := Raised (SystemExit status); final := w |}.
Proof.
  intros Hpre Htok.
  assert (E : exists status,
             argparse.parse_args parser (pre ++ token :: rest)%list
             = argparse.Exited status).
  { unfold argparse.parse_args in *.
    destruct (existsb _ (argparse.before_separator pre)); [discriminate|].
    destruct (existsb _ _); [eauto|].
    rewrite (consume_app (List.length pre) pre (le_n _) _ _ _ _ Hpre).
    cbn [argparse.consume].
    destruct (String.eqb token "--"); [eauto|].
    destruct Htok as [-> | ->]; apply (consume_extras (List.length rest)); lia. }
  destruct E as [status E]. exists status. apply exec_main_exited, E.
Qed.

Lemma X12_leftover_token_exits_witness :
  argparse.parse_args parser ["--env"; "uno"] = argparse.Parsed [("env", PyStr "uno")] /\
  (argparse.parse_optional parser "bridge" = argparse.Positional \/
   argparse.parse_optional parser "bridge" = argparse.Unknown) /\
  exists status,
    exec demo.library (main (["--env"; "uno"] ++ "bridge" :: ["--env"; "uno"])%list)
         (7, 0%nat)
    = {| log := []; outcome := Raised (SystemExit status); final := (7, 0%nat) |}.
Proof.
  assert (T : argparse.parse_optional parser "bridge" = argparse.Positional \/
              argparse.parse_optional parser "bridge" = argparse.Unknown).
  { left. reflexivity. }
  split; [reflexivity|]. split; [exact T|].
  exact (X12_leftover_token_exits demo.library (7, 0%nat)
           ["--env"; "uno"] ["--env"; "uno"] "bridge" [("env", PyStr "uno")]
           eq_refl T).
Defined.

Lemma consume_last (v : string) (n : nat) :
  forall pre, (List.length pre <= n)%nat ->
  forall ns extras args,
    argparse.consume parser ns extras (pre ++ ["--env"; v])%list
    = argparse.Parsed args ->
    argparse.getattr args "env" = Ok (PyStr v).
Proof.
  assert (Base : forall ns extras args,
             argparse.consume parser ns extras ["--env"; v] = argparse.Parsed args ->
             argparse.getattr args "env" = Ok (PyStr v)).
  { intros ns extras args. cbn [argparse.consume].
    change (String.eqb "--env" "--") with false. cbv iota.
    change (argparse.parse_optional parser "--env")
      with (argparse.Option_ (argparse.StoreAction env_argument) "--env" None).
    cbv iota.
    destruct (argparse.is_argument parser v) eqn:A; [|discriminate].
    rewrite get_values_one.
    destruct (String.eqb v "--") eqn:E.
    { apply String.eqb_eq in E. subst. discriminate A. }
    destruct (argparse.check_value env_argument v); [|discriminate].
    destruct extras; intros H; inversion H.
    apply (getattr_setattr ns "env" (PyStr v)). }
  induction n as [|n IH]; intros [|a pre] Hlen ns extras args;
    cbn [List.length] in Hlen; try lia; try apply Base.
  cbn [app argparse.consume].
  destruct (String.eqb a "--"); [discriminate|].
  destruct (argparse.parse_optional parser a)
    as [|[|a'] os [ex|]| |]; try discriminate.
  - apply IH; lia.
  - destruct (_ && _); discriminate.
  - destruct (argparse.get_values a' [ex]); [apply IH; lia | discriminate].
  - destruct pre as [|b pre']; cbn [app].
    + change (argparse.is_argument parser "--env") with false.
      discriminate.
    + destruct (argparse.is_argument parser b); [|discriminate].
      destruct (argparse.get_values a' [b]);
        [apply IH; cbn [List.length] in Hlen; lia | discriminate].
  - apply IH; lia.
Qed.

(** X13: when [--env] is given more than once, the last one decides: on an
    accepted command line that ends with [--env V], the factory is called
    with [V]. *)
Theorem X13_last_env_wins {W : Type} (h : Collaborators W) (w : W)
        (pre : list string) (v : string) (args : argparse.Namespace) :
  argparse.parse_args parser (pre ++ ["--env"; v])%list = argparse.Parsed args ->
  exists r rest,
    log (exec h (main (pre ++ ["--env"; v])%list) w)
    = Called (rlcard_make (PyStr v) config) r :: rest.
Proof.
  intros Hparse. rewrite (exec_main_parsed h w _ _ Hparse).
  assert (G : argparse.getattr args "env" = Ok (PyStr v)).
  { unfold argparse.parse_args in Hparse.
    destruct (existsb _ _); [discriminate|].
    apply (consume_last v (List.length pre) pre (le_n _) _ _ _ Hparse). }
  destruct (run_first_call h w args (PyStr v) G) as (r & rest & L & _).
  exists r, rest. exact L.
Qed.

Lemma X13_last_env_wins_witness :
  argparse.parse_args parser (["--env=uno"; "--e"; "mahjong"] ++ ["--env"; "bridge"])%list
  = argparse.Parsed [("env", PyStr "bridge")] /\
  exists r rest,
    log (exec demo.library
              (main (["--env=uno"; "--e"; "mahjong"] ++ ["--env"; "bridge"])%list)
              (7, 0%nat))
    = Called (rlcard_make (PyStr "bridge") config) r :: rest.
Proof.
  split; [reflexivity|].
  exact (X13_last_env_wins demo.library (7, 0%nat)
           ["--env=uno"; "--e"; "mahjong"] "bridge" [("env", PyStr "bridge")] eq_refl).
Defined.
